(** * A shallow embedding of the WebGL instanced-particle prototype

    Sources: [src/src/js/index.ts] holds two builds of the [WebGLPrototype]
    class one after the other:
    - lines 1-303, the model-sampling build: it loads an OBJ model and takes
      the particle offsets from the model's vertex positions (15012 instances);
    - lines 305-532, the triangle build: one hard-coded triangle and random
      offsets and orientations (5000 instances), with the uniform animation
      active in the frame loop.
    [src/unnamed/part_000] is the [cameras] module.

    JavaScript numbers are IEEE binary64 values, modelled by Rocq's primitive
    [float]; [new Float32Array(xs)] rounds each element to single precision
    (ECMAScript ToFloat32, round to nearest, ties to even), modelled by
    [fround]. Everything the code takes from three.js, the browser or modules
    that are not in the sources (lights, constants, the OBJ loader) is an
    input of the model: a field of [env] or [config], or an event. *)

From Stdlib Require Import Floats ZArith List Bool Lia.
From Stdlib Require String.
Import String.StringSyntax.

Local Set Warnings "-inexact-float,-abstract-large-number".
Local Open Scope string_scope.
Local Open Scope nat_scope.
Import ListNotations.

(** ** JavaScript values *)

(** [Math.fround]: binary64 to the nearest binary32 value, ties to even.
    [y + 2^52 - 2^52] rounds a float in [0, 2^24) to an integer (to
    nearest, ties to even); the scalings by powers of two are exact. *)
Definition fround (v : float) : float :=
  if (is_nan v || is_zero v || is_infinity v)%bool then v else
  let a := abs v in
  let e := snd (Z.frexp a) in
  let r :=
    if Z.ltb 128 e then infinity else
    let q := Z.max (e - 24) (-149) in
    let y := Z.ldexp a (- q) in
    let big := Z.ldexp 1 52 in
    let n := ((y + big) - big)%float in
    let r0 := Z.ldexp n q in
    if (Z.ldexp 1 128 <=? r0)%float then infinity else r0 in
  if get_sign v then (- r)%float else r.

(** [new Float32Array(xs)] *)
Definition Float32Array (xs : list float) : list float := map fround xs.

(** The value of an element read [a[i]]: a number, or [undefined] past the
    end of the array (no exception is raised by the read itself). *)
Inductive jsval := Undef | Num (n : float).

Definition get (a : list float) (i : nat) : jsval :=
  match nth_error a i with Some f => Num f | None => Undef end.

(** [v * c]: [undefined] converts to NaN. *)
Definition js_mul (v : jsval) (c : float) : float :=
  match v with Num f => (f * c)%float | Undef => nan end.

Inductive exn := TypeError.

(** A handler either runs to its end or throws. *)
Inductive outcome := Done | Threw (e : exn).

(** ** three.js value types *)

Record vec3 := mkVec3 { vx : float; vy : float; vz : float }.
Record vec4 := mkVec4 { qx : float; qy : float; qz : float; qw : float }.

(** [Vector4.length] and [Vector4.normalize]
    ([divideScalar(this.length() || 1)], [divideScalar(s)] multiplies by
    [1 / s]; [||] replaces 0 and NaN by 1). *)
Definition v4_length (v : vec4) : float :=
  sqrt (qx v * qx v + qy v * qy v + qz v * qz v + qw v * qw v)%float.

Definition v4_normalize (v : vec4) : vec4 :=
  let l := v4_length v in
  let s := if (is_zero l || is_nan l)%bool then 1%float else l in
  let k := (1 / s)%float in
  mkVec4 (qx v * k) (qy v * k) (qz v * k) (qw v * k).

(** A [PerspectiveCamera]: intrinsics, position, the point it looks at,
    and the parameters its projection matrix was last computed from. *)
Record frustum := mkFrustum { p_fov : float; p_aspect : float; p_near : float; p_far : float }.

Record camera := mkCamera {
  fov : float; aspect : float; near : float; far : float;
  position : vec3; target : vec3; projection : frustum }.

Definition origin : vec3 := mkVec3 0 0 0.

(** [camera.updateProjectionMatrix()] *)
Definition updateProjectionMatrix (c : camera) : camera :=
  mkCamera (fov c) (aspect c) (near c) (far c) (position c) (target c)
    (mkFrustum (fov c) (aspect c) (near c) (far c)).

(** [new PerspectiveCamera(fov, aspect, near, far)]: the constructor calls
    [updateProjectionMatrix]; the camera sits at the origin, looking down -Z. *)
Definition PerspectiveCamera (fv asp nr fr : float) : camera :=
  updateProjectionMatrix
    (mkCamera fv asp nr fr origin (mkVec3 0 0 (-1)) (mkFrustum 0 0 0 0)).

Definition set_aspect (c : camera) (a : float) : camera :=
  mkCamera (fov c) a (near c) (far c) (position c) (target c) (projection c).

Definition set_position (c : camera) (p : vec3) : camera :=
  mkCamera (fov c) (aspect c) (near c) (far c) p (target c) (projection c).

(** [camera.lookAt(p)] *)
Definition lookAt (c : camera) (p : vec3) : camera :=
  mkCamera (fov c) (aspect c) (near c) (far c) (position c) p (projection c).

(** ** The [cameras] module ([src/unnamed/part_000]) *)

Module Cameras.

Definition fov : float := 50.
Definition near : float := 1.
Definition far : float := 10.

(** [zoom(camera, value)]: [position.set(1*v, 0.75*v, 1*v)], then
    [position.z = 2], then [lookAt(new Vector3())]. *)
Definition zoom (c : camera) (value : float) : camera :=
  let c1 := set_position c (mkVec3 (1 * value) (0.75 * value) (1 * value)) in
  let c2 := set_position c1 (mkVec3 (vx (position c1)) (vy (position c1)) 2) in
  lookAt c2 origin.

(** The module body, evaluated with the window size at load time:
    [ratio = innerWidth / innerHeight]; [zoom(dev, 8)], [zoom(main, 3)]. *)
Definition dev (innerWidth innerHeight : float) : camera :=
  zoom (PerspectiveCamera fov (innerWidth / innerHeight) near far) 8.

Definition main (innerWidth innerHeight : float) : camera :=
  zoom (PerspectiveCamera fov (innerWidth / innerHeight) near far) 3.

End Cameras.

(** ** What the code receives from outside the sources *)

(** [SphereGeometry(radius, widthSegments, heightSegments)] as three.js
    builds it: a vertex list and faces given by vertex indices. *)
Record face := mkFace { fa : nat; fb : nat; fc : nat }.
Record sphere_geometry := mkSphere { vertices : list vec3; faces : list face }.

Record env := mkEnv {
  (** the value of the [k]-th call of [Math.random()] *)
  random : nat -> float;
  (** [Math.sin] *)
  js_sin : float -> float;
  (** [OrbitControls.update()]: moves the controlled camera *)
  orbit : vec3 -> vec3;
  (** [new SphereGeometry(radius, w, h)] *)
  SphereGeometry : float -> nat -> nat -> sphere_geometry }.

(** The modules [constants] and [lights], which are not in the sources. *)
Record config := mkConfig { DEV_HELPERS : bool; lights : list String.string }.

(** ** Scene graph nodes *)

(** A mesh of the loaded OBJ model: [child.material.wireframe] and
    [child.geometry.attributes.position.array]. *)
Record obj_child := mkObjChild { wireframe : bool; pos_array : list float }.
Record obj_model := mkObjModel { scale : vec3; mchildren : list obj_child }.

Record geometry := mkGeometry {
  maxInstancedCount : nat;
  g_position : list float;
  g_offset : list float;
  g_color : list float;
  g_orientationStart : list float;
  g_orientationEnd : list float }.

(** [uniforms.time.value] and [uniforms.sineTime.value] of the
    [RawShaderMaterial]. *)
Record uniforms := mkUniforms { u_time : float; u_sineTime : float }.

Inductive node_kind :=
| KGrid                                    (* GridHelper: line material, no uniforms *)
| KAxis                                    (* AxisHelper: line material, no uniforms *)
| KLight (name : String.string)                 (* a light: no material *)
| KModel (m : obj_model)                   (* the OBJ group: no material *)
| KParticles (g : geometry) (transparent : bool) (u : uniforms).

(** Every [Object3D] has a [rotation]; only its [y] is written by the code. *)
Record node := mkNode { kind : node_kind; rot_y : float }.

Definition mk (k : node_kind) : node := mkNode k 0.

(** ** The particle-field builder of the model-sampling build
    ([objectInit], index.ts lines 85-185) *)

(** A sample point pushed into [targetOffsets]: [{x, y, z}] read from the
    position array. *)
Record sample := mkSample { sx : jsval; sy : jsval; sz : jsval }.

(** The values of [i] at which the body of
    [for (let i = 0; i < len; i = i + 3)] runs. *)
Fixpoint loop_starts (len i fuel : nat) : list nat :=
  match fuel with
  | O => []
  | S f => if Nat.ltb i len then i :: loop_starts len (i + 3) f else []
  end.

Definition starts (len : nat) : list nat := loop_starts len 0 len.

(** The loop body at [i] reads [array[i]], [array[i+1]], [array[i+2]]. *)
Definition sample_at (a : list float) (i : nat) : sample :=
  mkSample (get a i) (get a (i + 1)) (get a (i + 2)).

Definition child_samples (a : list float) : list sample :=
  map (sample_at a) (starts (length a)).

(** [this.targetObject.children.forEach(...)]: every child is set to
    wireframe and its samples are appended to [targetOffsets]. *)
Definition flatten (m : obj_model) : obj_model * list sample :=
  (mkObjModel (scale m)
     (map (fun c => mkObjChild true (pos_array c)) (mchildren m)),
   flat_map (fun c => child_samples (pos_array c)) (mchildren m)).

(** [box.faces.forEach(...)]: three positions per face; [box.vertices[k]]
    of an index out of range is [undefined], and reading its [x] throws. *)
Definition push_vertex (vs : list vec3) (k : nat) (acc : option (list float))
  : option (list float) :=
  match acc, nth_error vs k with
  | Some ps, Some v => Some (ps ++ [vx v; vy v; vz v])
  | _, _ => None
  end.

Definition sphere_positions (box : sphere_geometry) : option (list float) :=
  fold_left (fun acc f =>
      push_vertex (vertices box) (fc f)
        (push_vertex (vertices box) (fb f)
           (push_vertex (vertices box) (fa f) acc)))
    (faces box) (Some []).

(** The JS arrays filled by the instance loop, and the number of
    [Math.random()] calls made so far. *)
Record attrs := mkAttrs {
  offsets : list float; colors : list float;
  orientationsStart : list float; orientationsEnd : list float;
  rng : nat }.

Definition q_half : vec4 := mkVec4 0.5 0.5 0.5 0.5.

Definition v4_list (v : vec4) : list float := [qx v; qy v; qz v; qw v].

(** One iteration of [for (let i = 0; i < instances; i++)] at [i]. *)
Definition instance_A (E : env) (pool : list sample) (i : nat) (a : attrs)
  : attrs + exn :=
  match nth_error pool i with
  | None => inr TypeError   (* targetOffsets[i] is undefined: reading .x throws *)
  | Some p =>
      let k := rng a in
      (* vector.set(.5, .5, .5, .5); vector.normalize(), twice *)
      let q := v4_normalize q_half in
      inl (mkAttrs
        (offsets a ++ [js_mul (sx p) 0.01; js_mul (sy p) 0.01; js_mul (sz p) 0.01])
        (colors a ++ [random E k; random E (k + 1); random E (k + 2); random E (k + 3)])
        (orientationsStart a ++ v4_list q)
        (orientationsEnd a ++ v4_list q)
        (k + 4))
  end.

(** The loop from [i] with [n] iterations left; on a throw, the number of
    random calls made before it. *)
Fixpoint instances_A (E : env) (pool : list sample) (i n : nat) (a : attrs)
  : attrs + nat :=
  match n with
  | O => inl a
  | S n' =>
      match instance_A E pool i a with
      | inl a' => instances_A E pool (S i) n' a'
      | inr _ => inr (rng a)
      end
  end.

Definition empty_attrs (r : nat) : attrs := mkAttrs [] [] [] [] r.

Definition to_geometry (instances : nat) (positions : list float) (a : attrs)
  : geometry :=
  mkGeometry instances (Float32Array positions) (Float32Array (offsets a))
    (Float32Array (colors a)) (Float32Array (orientationsStart a))
    (Float32Array (orientationsEnd a)).

Definition initial_uniforms : uniforms := mkUniforms 1 1.

(** The result of [objectInit]: the model after its children were set to
    wireframe, the random calls made, and the mesh, or the exception. *)
Record build := mkBuild {
  b_model : obj_model; b_rng : nat; b_mesh : node + exn }.

(** [objectInit] with [instances] as a parameter; the code has 15012. *)
Definition objectInit_gen (E : env) (instances : nat) (target : obj_model)
  (r : nat) : build :=
  let box := SphereGeometry E 0.01 8 1 in
  match sphere_positions box with
  | None => mkBuild target r (inr TypeError)
  | Some positions =>
      let (m', pool) := flatten target in
      match instances_A E pool 0 instances (empty_attrs r) with
      | inr r' => mkBuild m' r' (inr TypeError)
      | inl a =>
          mkBuild m' (rng a)
            (inl (mk (KParticles (to_geometry instances positions a) false
                        initial_uniforms)))
      end
  end.

Definition objectInit_A (E : env) (target : obj_model) (r : nat) : build :=
  objectInit_gen E 15012 target r.

(** ** The particle-field builder of the triangle build
    ([objectInit], index.ts lines 385-454) *)

(** [Math.random() * 2 - 1]; [sub x 0.5] below is [Math.random() - 0.5] *)
Definition signed (x : float) : float := (x * 2 - 1)%float.

(** One iteration: three random offsets, four random color channels, and
    two normalized random orientations, 15 calls of [Math.random()] in the
    order of the source. *)
Definition instance_B (E : env) (a : attrs) : attrs :=
  let k := rng a in
  let r j := random E (k + j) in
  let qs := v4_normalize (mkVec4 (signed (r 7)) (signed (r 8)) (signed (r 9)) (signed (r 10))) in
  let qe := v4_normalize (mkVec4 (signed (r 11)) (signed (r 12)) (signed (r 13)) (signed (r 14))) in
  mkAttrs
    (offsets a ++ [sub (r 0) 0.5; sub (r 1) 0.5; sub (r 2) 0.5])
    (colors a ++ [r 3; r 4; r 5; r 6])
    (orientationsStart a ++ v4_list qs)
    (orientationsEnd a ++ v4_list qe)
    (k + 15).

Fixpoint instances_B (E : env) (n : nat) (a : attrs) : attrs :=
  match n with O => a | S n' => instances_B E n' (instance_B E a) end.

Definition triangle : list float :=
  ([0.025; -0.025; 0; -0.025; 0.025; 0; 0; 0; 0.025])%float.

(** The mesh built with [instances = 5000], and the random calls made. *)
Definition objectInit_B (E : env) (r : nat) : node * nat :=
  let a := instances_B E 5000 (empty_attrs r) in
  (mk (KParticles (to_geometry 5000 triangle a) true initial_uniforms), rng a).

(** ** Renderer and frame loop *)

Record rect := mkRect { rl : float; rb : float; rw : float; rh : float }.

Inductive camname := CDev | CMain.

(** A draw [renderer.render(scene, camera)] and the viewport it used. *)
Record pass := mkPass { pcam : camname; prect : rect }.

Record renderer := mkRenderer {
  viewport : rect; scissor : rect; clearColor : Z; size : float * float;
  passes : list pass }.

Inductive logline :=
| LogInfo (what : String.string)
| LogWarn (err : String.string)
| LogUncaught (e : exn).

(** Loads started: [AssetLoader(name, assets)] and [OBJLoader.load(path)]. *)
Inductive request := ReqAssets (name : String.string) | ReqObj (path : String.string).

Record world := mkWorld {
  children : list node;
  cam_dev : camera; cam_main : camera;
  debugCamera : bool;
  innerWidth : float; innerHeight : float;
  rend : renderer;
  log : list logline;
  loads : list request;
  assets_settled : bool;
  obj_settled : bool;
  w_rng : nat;
  frames_requested : nat;
  targetObject : option obj_model }.

Definition set_children (s : world) (c : list node) : world :=
  mkWorld c (cam_dev s) (cam_main s) (debugCamera s) (innerWidth s) (innerHeight s)
    (rend s) (log s) (loads s) (assets_settled s) (obj_settled s) (w_rng s)
    (frames_requested s) (targetObject s).

Definition set_cams (s : world) (d m : camera) : world :=
  mkWorld (children s) d m (debugCamera s) (innerWidth s) (innerHeight s)
    (rend s) (log s) (loads s) (assets_settled s) (obj_settled s) (w_rng s)
    (frames_requested s) (targetObject s).

Definition set_debugCamera (s : world) (b : bool) : world :=
  mkWorld (children s) (cam_dev s) (cam_main s) b (innerWidth s) (innerHeight s)
    (rend s) (log s) (loads s) (assets_settled s) (obj_settled s) (w_rng s)
    (frames_requested s) (targetObject s).

Definition set_window (s : world) (w h : float) : world :=
  mkWorld (children s) (cam_dev s) (cam_main s) (debugCamera s) w h
    (rend s) (log s) (loads s) (assets_settled s) (obj_settled s) (w_rng s)
    (frames_requested s) (targetObject s).

Definition set_rend (s : world) (r : renderer) : world :=
  mkWorld (children s) (cam_dev s) (cam_main s) (debugCamera s) (innerWidth s)
    (innerHeight s) r (log s) (loads s) (assets_settled s) (obj_settled s)
    (w_rng s) (frames_requested s) (targetObject s).

Definition add_log (s : world) (l : logline) : world :=
  mkWorld (children s) (cam_dev s) (cam_main s) (debugCamera s) (innerWidth s)
    (innerHeight s) (rend s) (log s ++ [l]) (loads s) (assets_settled s)
    (obj_settled s) (w_rng s) (frames_requested s) (targetObject s).

Definition add_load (s : world) (r : request) : world :=
  mkWorld (children s) (cam_dev s) (cam_main s) (debugCamera s) (innerWidth s)
    (innerHeight s) (rend s) (log s) (loads s ++ [r]) (assets_settled s)
    (obj_settled s) (w_rng s) (frames_requested s) (targetObject s).

Definition settle_assets (s : world) : world :=
  mkWorld (children s) (cam_dev s) (cam_main s) (debugCamera s) (innerWidth s)
    (innerHeight s) (rend s) (log s) (loads s) true
    (obj_settled s) (w_rng s) (frames_requested s) (targetObject s).

Definition settle_obj (s : world) : world :=
  mkWorld (children s) (cam_dev s) (cam_main s) (debugCamera s) (innerWidth s)
    (innerHeight s) (rend s) (log s) (loads s) (assets_settled s)
    true (w_rng s) (frames_requested s) (targetObject s).

Definition set_target (s : world) (m : obj_model) (r : nat) : world :=
  mkWorld (children s) (cam_dev s) (cam_main s) (debugCamera s) (innerWidth s)
    (innerHeight s) (rend s) (log s) (loads s) (assets_settled s)
    (obj_settled s) r (frames_requested s) (Some m).

(** [requestAnimationFrame(this.update)] *)
Definition request_frame (s : world) : world :=
  mkWorld (children s) (cam_dev s) (cam_main s) (debugCamera s) (innerWidth s)
    (innerHeight s) (rend s) (log s) (loads s) (assets_settled s)
    (obj_settled s) (w_rng s) (S (frames_requested s)) (targetObject s).

Definition cam_of (s : world) (c : camname) : camera :=
  match c with CDev => cam_dev s | CMain => cam_main s end.

(** [render(camera, left, bottom, width, height)] (index.ts lines 246-262):
    the fractions are scaled by the window size, the rectangle is set as
    viewport and scissor, the clear color is set and the scene is drawn. *)
Definition render (s : world) (c : camname) (left bottom width height : float)
  : world :=
  let left := (left * innerWidth s)%float in
  let bottom := (bottom * innerHeight s)%float in
  let width := (width * innerWidth s)%float in
  let height := (height * innerHeight s)%float in
  let r := mkRect left bottom width height in
  let rd := rend s in
  set_rend s (mkRenderer r r 0x121212 (size rd) (passes rd ++ [mkPass c r])).

(** The two branches on [flags.debugCamera] (lines 288-293 and 517-522). *)
Definition render_frame (s : world) : world :=
  if debugCamera s then
    render (render s CDev 0 0 1 1) CMain 0 0.75 0.25 0.25
  else render s CMain 0 0 1 1.

(** [this.controls.dev.update(); this.controls.main.update()] *)
Definition controls_update (E : env) (s : world) : world :=
  set_cams s (set_position (cam_dev s) (orbit E (position (cam_dev s))))
             (set_position (cam_main s) (orbit E (position (cam_main s)))).

(** [update] of the model-sampling build (lines 264-300), at
    [performance.now() = time]. [scene.children[length - 1]] is read into
    [object] but not used: the block using it is commented out. *)
Definition update_A (E : env) (s : world) (time : float) : world :=
  let s := request_frame s in
  let s := controls_update E s in
  let _object := last (children s) (mk KGrid) in
  render_frame s.

(** [xs[i] = x] for an index in range. *)
Fixpoint list_set {A} (xs : list A) (i : nat) (x : A) : list A :=
  match xs, i with
  | [], _ => []
  | _ :: t, O => x :: t
  | y :: t, S i' => y :: list_set t i' x
  end.

(** [update] of the triangle build (lines 495-529): [object =
    scene.children[3]]; [object.rotation.y = time * 0.0005] (an [undefined]
    object throws); then [object.material.uniforms.time.value] and
    [sineTime.value] (a node without material, or a line material without
    uniforms, throws); then the render passes. *)
Definition update_B (E : env) (s : world) (time : float) : world * outcome :=
  let s := request_frame s in
  let s := controls_update E s in
  match nth_error (children s) 3 with
  | None => (s, Threw TypeError)
  | Some object =>
      let object := mkNode (kind object) (time * 0.0005)%float in
      let s := set_children s (list_set (children s) 3 object) in
      match kind object with
      | KParticles g tr u =>
          let t := (time * 0.005)%float in
          let u := mkUniforms t (js_sin E (t * 0.05)%float) in
          let object := mkNode (KParticles g tr u) (rot_y object) in
          let s := set_children s (list_set (children s) 3 object) in
          (render_frame s, Done)
      | _ => (s, Threw TypeError)
      end
  end.

(** [onResize] (lines 236-244), after the window took the size [w x h]:
    both aspects set to [innerWidth / innerHeight], both projections
    recomputed, the renderer resized; three.js's [setSize] also sets the
    viewport to [(0, 0, w, h)] and leaves the scissor as it was. *)
Definition onResize (s : world) : world :=
  let d := set_aspect (cam_dev s) (innerWidth s / innerHeight s)%float in
  let m := set_aspect (cam_main s) (innerWidth s / innerHeight s)%float in
  let s := set_cams s d m in
  let s := set_cams s (updateProjectionMatrix (cam_dev s)) (cam_main s) in
  let s := set_cams s (cam_dev s) (updateProjectionMatrix (cam_main s)) in
  let rd := rend s in
  set_rend s (mkRenderer (mkRect 0 0 (innerWidth s) (innerHeight s)) (scissor rd)
                (clearColor rd) (innerWidth s, innerHeight s) (passes rd)).

Definition obj_path : String.string := "./assets/webgl/obj/male02.obj".

(** [onAssetsLoaded] of the model-sampling build: log, then [loadObj()],
    which starts the OBJ load. *)
Definition onAssetsLoaded_A (s : world) : world :=
  add_load (add_log s (LogInfo "assets loaded")) (ReqObj obj_path).

(** [onAssetsError]: [console.warn(error)]. *)
Definition onAssetsError (s : world) (err : String.string) : world :=
  add_log s (LogWarn err).

Definition scale_model (m : obj_model) (k : float) : obj_model :=
  mkObjModel (mkVec3 k k k) (mchildren m).

(** The success callback of [loader.load] in [loadObj] (lines 205-221):
    the model is scaled by 0.02, kept in [this.targetObject], added to the
    scene, and [objectInit] runs. The scene's node and [targetObject] are
    one object, so the wireframe flags [objectInit] sets show in both. An
    exception escapes the callback and is reported as uncaught. *)
Definition onObjLoaded (E : env) (m : obj_model) (s : world) : world :=
  let m := scale_model m 0.02 in
  let b := objectInit_A E m (w_rng s) in
  let s := set_target s (b_model b) (b_rng b) in
  match b_mesh b with
  | inl mesh => set_children s (children s ++ [mk (KModel (b_model b)); mesh])
  | inr e => add_log (set_children s (children s ++ [mk (KModel (b_model b))]))
               (LogUncaught e)
  end.

Inductive settle := Resolved | Rejected (err : String.string).

Inductive event :=
| EvFrame (time : float)              (* an animation frame *)
| EvResize (w h : float)              (* the window now has size w x h *)
| EvToggle (b : bool)                 (* the debug panel sets flags.debugCamera *)
| EvAssets (r : settle)               (* the AssetLoader promise settles *)
| EvObjLoaded (m : obj_model).        (* the OBJ loader calls back *)

Definition is_obj_request (r : request) : bool :=
  match r with ReqObj _ => true | ReqAssets _ => false end.

(** One event of the model-sampling build. The asset promise settles once,
    the OBJ loader calls back once and only when a load was started. *)
Definition step_A (E : env) (s : world) (ev : event) : world :=
  match ev with
  | EvFrame t => update_A E s t
  | EvResize w h => onResize (set_window s w h)
  | EvToggle b => set_debugCamera s b
  | EvAssets r =>
      if assets_settled s then s else
      let s := settle_assets s in
      match r with
      | Resolved => onAssetsLoaded_A s
      | Rejected err => onAssetsError s err
      end
  | EvObjLoaded m =>
      if (obj_settled s || negb (existsb is_obj_request (loads s)))%bool then s
      else onObjLoaded E m (settle_obj s)
  end.

Definition run_A (E : env) (s : world) (evs : list event) : world :=
  fold_left (step_A E) evs s.

(** The scene after the constructor's [scene.add] calls: the two helpers
    when [DEV_HELPERS], then one node per light. *)
Definition startup_children (cfg : config) : list node :=
  (if DEV_HELPERS cfg then [mk KGrid; mk KAxis] else [])
  ++ map (fun l => mk (KLight l)) (lights cfg).

(** The constructor up to [this.update()], with the window [w x h] at load
    time, the initial debug flag and the renderer module's renderer; the
    [cameras] module was evaluated with the same window. *)
Definition startup (cfg : config) (w h : float) (dbg : bool) (r0 : renderer)
  : world :=
  mkWorld (startup_children cfg) (Cameras.dev w h) (Cameras.main w h) dbg w h
    r0 [] [ReqAssets "default"] false false 0 0 None.

(** The whole constructor of the model-sampling build. *)
Definition constructor_A (E : env) (cfg : config) (w h : float) (dbg : bool)
  (r0 : renderer) (time : float) : world :=
  update_A E (startup cfg w h dbg r0) time.

(** ** The event loop of the triangle build (lines 305-532) *)

Definition set_rng (s : world) (r : nat) : world :=
  mkWorld (children s) (cam_dev s) (cam_main s) (debugCamera s) (innerWidth s)
    (innerHeight s) (rend s) (log s) (loads s) (assets_settled s)
    (obj_settled s) r (frames_requested s) (targetObject s).

(** [onAssetsLoaded] of the triangle build (lines 456-461): log, then
    [objectInit()], which adds the mesh and logs the scene. *)
Definition onAssetsLoaded_B (E : env) (s : world) : world :=
  let s := add_log s (LogInfo "assets loaded") in
  let (mesh, r) := objectInit_B E (w_rng s) in
  let s := set_rng (set_children s (children s ++ [mesh])) r in
  add_log s (LogInfo "scene").

(** A frame of the triangle build; an exception thrown by [update] is
    reported as uncaught, and the next frame, already requested, still
    runs. *)
Definition frame_B (E : env) (s : world) (t : float) : world :=
  match update_B E s t with
  | (s', Done) => s'
  | (s', Threw e) => add_log s' (LogUncaught e)
  end.

(** One event of the triangle build; it starts no OBJ load, so the OBJ
    callback never runs. *)
Definition step_B (E : env) (s : world) (ev : event) : world :=
  match ev with
  | EvFrame t => frame_B E s t
  | EvResize w h => onResize (set_window s w h)
  | EvToggle b => set_debugCamera s b
  | EvAssets r =>
      if assets_settled s then s else
      let s := settle_assets s in
      match r with
      | Resolved => onAssetsLoaded_B E s
      | Rejected err => onAssetsError s err
      end
  | EvObjLoaded _ => s
  end.

Definition run_B (E : env) (s : world) (evs : list event) : world :=
  fold_left (step_B E) evs s.

(** The whole constructor of the triangle build: its last statement is
    [this.update()]. *)
Definition constructor_B (E : env) (cfg : config) (w h : float) (dbg : bool)
  (r0 : renderer) (time : float) : world :=
  frame_B E (startup cfg w h dbg r0) time.

(** ** Properties the claims talk about *)

(** [0 <= x < 1], the range of [Math.random()]. *)
Definition in01 (x : float) : bool := ((0 <=? x) && (x <? 1))%float.

Definition mesh_geometry (n : node) : option geometry :=
  match kind n with KParticles g _ _ => Some g | _ => None end.

(** The particle field as the claims describe it: every channel of the
    color attribute in [0, 1), and the offset attribute equal to the
    sample point times 0.01. *)
Definition claim_C1 (pool : list sample) (g : geometry) : Prop :=
  forall i, i < maxInstancedCount g ->
    (forall k, k < 4 -> in01 (nth (4 * i + k) (g_color g) 0%float) = true) /\
    exists p, nth_error pool i = Some p /\
      nth (3 * i) (g_offset g) 0%float = js_mul (sx p) 0.01 /\
      nth (3 * i + 1) (g_offset g) 0%float = js_mul (sy p) 0.01 /\
      nth (3 * i + 2) (g_offset g) 0%float = js_mul (sz p) 0.01.

(** Every orientation component of every instance is 0.5. *)
Definition claim_C8 (g : geometry) : Prop :=
  forall i k, i < maxInstancedCount g -> k < 4 ->
    nth (4 * i + k) (g_orientationStart g) 0%float = 0.5%float /\
    nth (4 * i + k) (g_orientationEnd g) 0%float = 0.5%float.

(** The passes [render_frame] issues for a flag and a window size. *)
Definition expected_passes (dbg : bool) (W H : float) : list pass :=
  if dbg then
    [mkPass CDev (mkRect (0 * W) (0 * H) (1 * W) (1 * H));
     mkPass CMain (mkRect (0 * W) (0.75 * H) (0.25 * W) (0.25 * H))]
  else [mkPass CMain (mkRect (0 * W) (0 * H) (1 * W) (1 * H))]%float.

(** The projection matrix is up to date with the camera's parameters. *)
Definition projection_fresh (c : camera) : Prop :=
  projection c = mkFrustum (fov c) (aspect c) (near c) (far c).

(** Both cameras' aspect is the window's ratio and both projections are
    up to date. *)
Definition aspect_inv (s : world) : Prop :=
  aspect (cam_dev s) = (innerWidth s / innerHeight s)%float /\
  aspect (cam_main s) = (innerWidth s / innerHeight s)%float /\
  projection_fresh (cam_dev s) /\ projection_fresh (cam_main s).

(** The first three components of the [i]-th sample, times 0.01. *)
Definition off3 (p : sample) : list float :=
  [js_mul (sx p) 0.01; js_mul (sy p) 0.01; js_mul (sz p) 0.01].

Definition rand4 (E : env) (k : nat) : list float :=
  [random E k; random E (k + 1); random E (k + 2); random E (k + 3)].

Definition no_sample : sample := mkSample Undef Undef Undef.

(** ** Concrete inputs *)

(** A sphere geometry with one face. *)
Definition sphere1 : sphere_geometry :=
  mkSphere [mkVec3 0.01 0 0; mkVec3 0 0.01 0; mkVec3 0 0 0.01] [mkFace 0 1 2].

(** An environment whose [Math.random()] returns [r k] at call [k]. *)
Definition env_of (r : nat -> float) : env :=
  mkEnv r (fun x => x) (fun p => p) (fun _ _ _ => sphere1).

(** A model of 15012 meshes, each with one vertex. *)
Definition model_15012 : obj_model :=
  mkObjModel (mkVec3 1 1 1) (repeat (mkObjChild false [1; 2; 3]%float) 15012).

(** The largest double below 1 (0x3FEFFFFFFFFFFFFF = 1 - 2^-52), a value
    [Math.random()] can return. *)
Definition below_one : float := 0.99999999999999978.

Definition renderer0 : renderer :=
  mkRenderer (mkRect 0 0 800 600) (mkRect 0 0 800 600) 0 (800, 600)%float [].

(** Two helpers and one light: the scene graph has three children before
    the particle mesh is added. *)
Definition cfg3 : config := mkConfig true ["ambient"].

(** The arrays the model-sampling loop has filled after [n] iterations
    from [i = 0], starting with [r] random calls made. *)
Definition attrs_A (E : env) (pool : list sample) (n r : nat) : attrs :=
  mkAttrs
    (flat_map (fun j => off3 (nth j pool no_sample)) (seq 0 n))
    (flat_map (fun j => rand4 E (r + 4 * j)) (seq 0 n))
    (flat_map (fun _ => v4_list (v4_normalize q_half)) (seq 0 n))
    (flat_map (fun _ => v4_list (v4_normalize q_half)) (seq 0 n))
    (r + 4 * n).

(** A model with a single vertex. *)
Definition model_1 : obj_model :=
  mkObjModel (mkVec3 1 1 1) [mkObjChild false [1; 2; 3]%float].

(** The start and end orientations the triangle build draws for an
    instance whose first random call is the [k]-th. *)
Definition q_start (E : env) (k : nat) : vec4 :=
  mkVec4 (signed (random E (k + 7))) (signed (random E (k + 8)))
         (signed (random E (k + 9))) (signed (random E (k + 10))).

Definition q_end (E : env) (k : nat) : vec4 :=
  mkVec4 (signed (random E (k + 11))) (signed (random E (k + 12)))
         (signed (random E (k + 13))) (signed (random E (k + 14))).

(** The coordinates a face loop pushes for one vertex. *)
Definition vlist (v : vec3) : list float := [vx v; vy v; vz v].

Definition face_in_range (n : nat) (f : face) : bool :=
  (Nat.ltb (fa f) n && Nat.ltb (fb f) n && Nat.ltb (fc f) n)%bool.

Definition face_positions (vs : list vec3) (f : face) : list float :=
  vlist (nth (fa f) vs origin) ++ vlist (nth (fb f) vs origin)
  ++ vlist (nth (fc f) vs origin).

Definition is_frame (ev : event) : bool :=
  match ev with EvFrame _ => true | _ => false end.

Definition is_assets (ev : event) : bool :=
  match ev with EvAssets _ => true | _ => false end.

(** What stays true of the model-sampling build from its startup on: the
    loads started and the scene's children. *)
Definition inv_A (cfg : config) (s : world) : Prop :=
  (assets_settled s = false -> loads s = [ReqAssets "default"]) /\
  (loads s = [ReqAssets "default"] \/ loads s = [ReqAssets "default"; ReqObj obj_path]) /\
  (obj_settled s = false -> children s = startup_children cfg) /\
  (children s = startup_children cfg \/
   (exists M, children s = startup_children cfg ++ [mk (KModel M)]) \/
   (exists M g tr u, children s =
      startup_children cfg ++ [mk (KModel M); mk (KParticles g tr u)])).

(** The scene of the triangle build: the startup nodes, possibly with their
    rotations changed, then at most the particle mesh, added when the asset
    promise settles. *)
Definition inv_B (cfg : config) (s : world) : Prop :=
  exists pre post, children s = pre ++ post /\
    map kind pre = map kind (startup_children cfg) /\ length post <= 1 /\
    (assets_settled s = false -> post = []).

(** ** Proofs *)

(** *** Lists *)

Lemma flat_map_map_seq {A} (f : nat -> list A) (l : list nat) :
  flat_map f (map S l) = flat_map (fun j => f (S j)) l.
Proof. induction l as [|x l IH]; simpl; [reflexivity | now rewrite IH]. Qed.

Lemma flat_map_seq_S {A} (f : nat -> list A) n :
  flat_map f (seq 0 (S n)) = f 0 ++ flat_map (fun j => f (S j)) (seq 0 n).
Proof. simpl. now rewrite <- seq_shift, flat_map_map_seq. Qed.

Lemma length_flat_map_const {A} (f : nat -> list A) c l :
  (forall x, length (f x) = c) -> length (flat_map f l) = c * length l.
Proof.
  intros Hf. induction l as [|x l IH]; simpl; [lia|].
  rewrite length_app, Hf, IH. lia.
Qed.

Lemma nth_flat_map_seq {A} (f : nat -> list A) c n j k d :
  (forall x, length (f x) = c) -> j < n -> k < c ->
  nth (c * j + k) (flat_map f (seq 0 n)) d = nth k (f j) d.
Proof.
  intros Hf. induction n as [|n IH]; intros Hj Hk; [lia|].
  rewrite seq_S, flat_map_app. cbn [flat_map]. rewrite app_nil_r, Nat.add_0_l.
  assert (Hl : length (flat_map f (seq 0 n)) = c * n)
    by (rewrite (length_flat_map_const f c) by exact Hf; now rewrite length_seq).
  destruct (Nat.eq_dec j n) as [->|Hne].
  - rewrite app_nth2 by lia. now replace (c * n + k - length (flat_map f (seq 0 n))) with k by lia.
  - rewrite app_nth1 by nia. apply IH; lia.
Qed.

Lemma nth_error_in_range {A} (l : list A) i d :
  i < length l -> nth_error l i = Some (nth i l d).
Proof. intros H. now apply nth_error_nth'. Qed.

(** *** The model-sampling instance loop *)

Section LoopA.
Variable E : env.
Variable pool : list sample.

Lemma instances_A_ok : forall n i a, i + n <= length pool ->
  instances_A E pool i n a = inl (mkAttrs
    (offsets a ++ flat_map (fun j => off3 (nth (i + j) pool no_sample)) (seq 0 n))
    (colors a ++ flat_map (fun j => rand4 E (rng a + 4 * j)) (seq 0 n))
    (orientationsStart a ++ flat_map (fun _ => v4_list (v4_normalize q_half)) (seq 0 n))
    (orientationsEnd a ++ flat_map (fun _ => v4_list (v4_normalize q_half)) (seq 0 n))
    (rng a + 4 * n)).
Proof.
  induction n as [|n IH]; intros i a H.
  - destruct a; simpl. now rewrite ?app_nil_r, ?Nat.add_0_r.
  - simpl instances_A. unfold instance_A.
    rewrite (nth_error_in_range pool i no_sample) by lia.
    rewrite IH by lia. cbn [offsets colors orientationsStart orientationsEnd rng].
    rewrite !flat_map_seq_S, !app_assoc, !Nat.add_0_r.
    f_equal. f_equal.
    + f_equal. apply flat_map_ext. intros j. now rewrite Nat.add_succ_r.
    + f_equal. apply flat_map_ext. intros j. f_equal. lia.
    + lia.
Qed.

Lemma instances_A_fail : forall n i a, length pool < i + n -> i <= length pool ->
  instances_A E pool i n a = inr (rng a + 4 * (length pool - i)).
Proof.
  induction n as [|n IH]; intros i a H Hi; [lia|].
  simpl instances_A. unfold instance_A.
  destruct (Nat.eq_dec i (length pool)) as [->|Hne].
  - rewrite (proj2 (nth_error_None pool (length pool))) by lia.
    f_equal. lia.
  - rewrite (nth_error_in_range pool i no_sample) by lia.
    rewrite IH by lia. simpl. f_equal. lia.
Qed.

Lemma instances_A_inl : forall n i a a', i <= length pool ->
  instances_A E pool i n a = inl a' -> i + n <= length pool.
Proof.
  intros n i a a' Hi H.
  destruct (le_lt_dec (i + n) (length pool)) as [Hle|Hlt]; [exact Hle|].
  rewrite instances_A_fail in H by lia. discriminate.
Qed.

End LoopA.

Lemma nth_Float32Array (l : list float) i :
  nth i (Float32Array l) 0%float = fround (nth i l 0%float).
Proof.
  unfold Float32Array. change 0%float with (fround 0%float) at 1.
  apply map_nth.
Qed.

(** *** The model-sampling builder *)

Lemma objectInit_gen_ok (E : env) (N : nat) (m : obj_model) (r : nat)
  (positions : list float) :
  sphere_positions (SphereGeometry E 0.01 8 1) = Some positions ->
  N <= length (snd (flatten m)) ->
  objectInit_gen E N m r =
  mkBuild (fst (flatten m)) (r + 4 * N)
    (inl (mk (KParticles (to_geometry N positions (attrs_A E (snd (flatten m)) N r))
                false initial_uniforms))).
Proof.
  intros Hs Hn. unfold objectInit_gen. rewrite Hs.
  destruct (flatten m) as [m' pool]. simpl in Hn |- *.
  rewrite instances_A_ok by lia. reflexivity.
Qed.

Lemma objectInit_gen_mesh (E : env) (N : nat) (m : obj_model) (r : nat) (n : node) :
  b_mesh (objectInit_gen E N m r) = inl n ->
  exists positions,
    sphere_positions (SphereGeometry E 0.01 8 1) = Some positions /\
    N <= length (snd (flatten m)) /\
    n = mk (KParticles (to_geometry N positions (attrs_A E (snd (flatten m)) N r))
              false initial_uniforms).
Proof.
  intros H.
  destruct (sphere_positions (SphereGeometry E 0.01 8 1)) as [positions|] eqn:Hs.
  2:{ unfold objectInit_gen in H. rewrite Hs in H. discriminate. }
  exists positions. split; [reflexivity|].
  assert (Hn : N <= length (snd (flatten m))).
  { unfold objectInit_gen in H. rewrite Hs in H.
    destruct (flatten m) as [m' pool]. simpl.
    destruct (instances_A E pool 0 N (empty_attrs r)) as [a|r'] eqn:Hi; [|discriminate].
    apply instances_A_inl in Hi; lia. }
  split; [exact Hn|].
  rewrite (objectInit_gen_ok E N m r positions Hs Hn) in H. simpl in H.
  now injection H as <-.
Qed.

Lemma attrs_A_colors (E : env) (pool : list sample) (n r i k : nat) :
  i < n -> k < 4 ->
  nth (4 * i + k) (colors (attrs_A E pool n r)) 0%float = random E (r + 4 * i + k).
Proof.
  intros Hi Hk. unfold attrs_A; cbn [colors].
  rewrite (nth_flat_map_seq _ 4) by (auto; intros; reflexivity).
  destruct k as [|[|[|[|k]]]]; [..|lia]; simpl; f_equal; lia.
Qed.

Lemma attrs_A_offsets (E : env) (pool : list sample) (n r i k : nat) :
  i < n -> k < 3 ->
  nth (3 * i + k) (offsets (attrs_A E pool n r)) 0%float =
  nth k (off3 (nth i pool no_sample)) 0%float.
Proof.
  intros Hi Hk. unfold attrs_A; cbn [offsets].
  apply (nth_flat_map_seq (fun j => off3 (nth j pool no_sample)) 3); auto.
Qed.

Lemma attrs_A_orientations (E : env) (pool : list sample) (n r i k : nat) :
  i < n -> k < 4 ->
  nth (4 * i + k) (orientationsStart (attrs_A E pool n r)) 0%float = 0.5%float /\
  nth (4 * i + k) (orientationsEnd (attrs_A E pool n r)) 0%float = 0.5%float.
Proof.
  intros Hi Hk. unfold attrs_A; cbn [orientationsStart orientationsEnd].
  rewrite !(nth_flat_map_seq (fun _ => v4_list (v4_normalize q_half)) 4) by auto.
  destruct k as [|[|[|[|k]]]]; [..|lia]; split; vm_compute; reflexivity.
Qed.

Lemma model_15012_pool : 15012 <= length (snd (flatten model_15012)).
Proof. apply Nat.leb_le. vm_compute. reflexivity. Qed.

Lemma sphere1_positions : exists positions, sphere_positions sphere1 = Some positions.
Proof. eexists. reflexivity. Qed.

(** *** C1: the particle field's colors and offsets *)

(** C1 (corrected). For every instance [i < 15012] of the field the
    model-sampling build makes, the JS array [colors] holds the four
    [Math.random()] values of the instance, each in [0, 1), and the JS array
    [offsets] holds the [i]-th sample point of the flattened pool times
    0.01; the color and offset attributes are these arrays converted by
    [new Float32Array], i.e. each value rounded to single precision. *)
Theorem objectInit_A_attribute_arrays (E : env) (m : obj_model) (r : nat)
  (g : geometry) (tr : bool) (u : uniforms)
  (Hrand : forall k, in01 (random E k) = true)
  (Hok : b_mesh (objectInit_A E m r) = inl (mk (KParticles g tr u))) :
  exists positions a,
    g = to_geometry 15012 positions a /\
    forall i, i < 15012 ->
      (forall k, k < 4 ->
         nth (4 * i + k) (colors a) 0%float = random E (r + 4 * i + k) /\
         in01 (nth (4 * i + k) (colors a) 0%float) = true) /\
      exists p, nth_error (snd (flatten m)) i = Some p /\
        nth (3 * i) (offsets a) 0%float = js_mul (sx p) 0.01 /\
        nth (3 * i + 1) (offsets a) 0%float = js_mul (sy p) 0.01 /\
        nth (3 * i + 2) (offsets a) 0%float = js_mul (sz p) 0.01.
Proof.
  apply objectInit_gen_mesh in Hok.
  destruct Hok as [positions [_ [Hn Heq]]]. injection Heq as Hg _ _.
  exists positions, (attrs_A E (snd (flatten m)) 15012 r). split; [exact Hg|].
  intros i Hi. split.
  - intros k Hk. rewrite attrs_A_colors by assumption. split; [reflexivity|apply Hrand].
  - exists (nth i (snd (flatten m)) no_sample).
    split; [apply nth_error_in_range; lia|].
    rewrite <- (Nat.add_0_r (3 * i)) at 1.
    rewrite !attrs_A_offsets by lia. repeat split.
Qed.

Lemma objectInit_A_attribute_arrays_witness :
  exists g tr u,
    b_mesh (objectInit_A (env_of (fun _ => 0.5%float)) model_15012 0) =
      inl (mk (KParticles g tr u)) /\
    exists positions a, g = to_geometry 15012 positions a.
Proof.
  destruct sphere1_positions as [positions Hs].
  pose proof (objectInit_gen_ok (env_of (fun _ => 0.5%float)) 15012 model_15012 0
                positions Hs model_15012_pool) as Hb.
  eexists _, _, _. split.
  - unfold objectInit_A. rewrite Hb. reflexivity.
  - edestruct (objectInit_A_attribute_arrays (env_of (fun _ => 0.5%float))
                 model_15012 0) as [ps [a [Hg _]]].
    + intros k. reflexivity.
    + unfold objectInit_A. rewrite Hb. reflexivity.
    + exists ps, a. exact Hg.
Defined.

(** C1, as stated, fails: when the first [Math.random()] call of the build
    returns [1 - 2^-52], the first color channel of instance 0 in the
    instanced attribute is [fround (1 - 2^-52) = 1], outside [0, 1). *)
Lemma objectInit_A_color_rounds_to_one :
  exists g tr u,
    b_mesh (objectInit_A
              (env_of (fun k => if Nat.eqb k 0 then below_one else 0.5%float))
              model_15012 0) = inl (mk (KParticles g tr u)) /\
    nth 0 (g_color g) 0%float = 1%float /\
    ~ claim_C1 (snd (flatten model_15012)) g.
Proof.
  set (E := env_of (fun k => if Nat.eqb k 0 then below_one else 0.5%float)).
  destruct sphere1_positions as [positions Hs].
  pose proof (objectInit_gen_ok E 15012 model_15012 0 positions Hs model_15012_pool) as Hb.
  assert (H0 : 0 < 15012) by (apply Nat.ltb_lt; reflexivity).
  assert (Hc : nth (4 * 0 + 0) (g_color (to_geometry 15012 positions
                 (attrs_A E (snd (flatten model_15012)) 15012 0))) 0%float = 1%float).
  { cbn [g_color to_geometry]. rewrite nth_Float32Array, attrs_A_colors by lia.
    vm_compute. reflexivity. }
  eexists _, _, _. split; [unfold objectInit_A; rewrite Hb; reflexivity|].
  split; [exact Hc|].
  intros Hclaim. destruct (Hclaim 0 H0) as [Hcol _].
  specialize (Hcol 0 ltac:(lia)). rewrite Hc in Hcol. vm_compute in Hcol. discriminate.
Qed.

(** *** C2: a pool smaller than the instance count *)

(** C2 (confirmed). When the instance count [N] exceeds the number of
    sample points, the instance loop runs the in-range instances and then
    throws at [i = length pool]: [targetOffsets[i]] is [undefined] and
    reading its [x] raises a TypeError, so the builder produces no mesh.
    With the code's [N = 15012], the OBJ callback leaves the scene with the
    model added and no particle mesh, and the TypeError escapes it. *)
Theorem objectInit_pool_too_small (E : env) (N : nat) (m : obj_model) (r : nat)
  (HN : length (snd (flatten m)) < N) :
  instances_A E (snd (flatten m)) 0 N (empty_attrs r) =
    inr (r + 4 * length (snd (flatten m))) /\
  b_mesh (objectInit_gen E N m r) = inr TypeError /\
  (N = 15012 -> forall s : world, exists m',
     children (onObjLoaded E m s) = children s ++ [mk (KModel m')] /\
     log (onObjLoaded E m s) = log s ++ [LogUncaught TypeError]).
Proof.
  assert (Hloop : instances_A E (snd (flatten m)) 0 N (empty_attrs r) =
                  inr (r + 4 * length (snd (flatten m)))).
  { rewrite instances_A_fail by lia. simpl. f_equal. lia. }
  assert (Hbuild : forall m0 r0, snd (flatten m0) = snd (flatten m) ->
                   b_mesh (objectInit_gen E N m0 r0) = inr TypeError).
  { intros m0 r0 Hm0. unfold objectInit_gen.
    destruct (sphere_positions (SphereGeometry E 0.01 8 1)); [|reflexivity].
    destruct (flatten m0) as [m' pool] eqn:Hf. cbn [snd] in Hm0. subst pool.
    rewrite instances_A_fail by lia. reflexivity. }
  split; [exact Hloop|]. split; [apply Hbuild; reflexivity|].
  intros -> s. unfold onObjLoaded.
  pose proof (Hbuild (scale_model m 0.02) (w_rng s) eq_refl) as Hb.
  unfold objectInit_A. destruct (objectInit_gen E 15012 (scale_model m 0.02) (w_rng s))
    as [bm br bmesh]. simpl in Hb |- *. subst bmesh.
  exists bm. split; reflexivity.
Qed.

Lemma objectInit_pool_too_small_witness :
  length (snd (flatten model_1)) < 15012 /\
  b_mesh (objectInit_gen (env_of (fun _ => 0.5%float)) 15012 model_1 0) = inr TypeError.
Proof.
  assert (H : length (snd (flatten model_1)) < 15012)
    by (apply Nat.ltb_lt; vm_compute; reflexivity).
  split; [exact H|].
  apply (objectInit_pool_too_small (env_of (fun _ => 0.5%float)) 15012 model_1 0 H).
Defined.

(** *** C10: the stride-3 flattening loop *)

Lemma In_loop_starts (len : nat) : forall fuel j i,
  In i (loop_starts len j fuel) <->
  (j <= i /\ i < len /\ exists q, i = j + 3 * q /\ q < fuel).
Proof.
  induction fuel as [|fuel IH]; intros j i; simpl.
  - split; [tauto|]. intros (_ & _ & q & _ & Hq). lia.
  - destruct (Nat.ltb_spec j len) as [Hj|Hj]; simpl.
    + rewrite IH. split.
      * intros [<- | (H1 & H2 & q & -> & Hq)].
        -- split; [lia|]. split; [lia|]. exists 0. lia.
        -- split; [lia|]. split; [lia|]. exists (S q). lia.
      * intros (H1 & H2 & q & -> & Hq). destruct q as [|q].
        -- left. lia.
        -- right. split; [lia|]. split; [lia|]. exists q. lia.
    + split; [tauto|]. intros (H1 & H2 & _). lia.
Qed.

Lemma In_starts (len i : nat) : In i (starts len) <-> i < len /\ i mod 3 = 0.
Proof.
  unfold starts. rewrite In_loop_starts.
  pose proof (Nat.div_mod_eq i 3). pose proof (Nat.mod_upper_bound i 3).
  split.
  - intros (_ & Hlt & q & -> & _). split; [lia|].
    rewrite Nat.add_0_l, Nat.mul_comm. apply Nat.Div0.mod_mul.
  - intros (H1 & H2). split; [lia|]. split; [lia|]. exists (i / 3). lia.
Qed.

(** C10 (confirmed). The loop over a position array [a] visits
    [i = 0, 3, 6, ...] while [i < a.length] and reads [a[i]], [a[i+1]],
    [a[i+2]]. All its reads are in range exactly when [a.length] is a
    multiple of 3. Otherwise the last iteration, at
    [i = a.length - a.length mod 3], reads [3 - a.length mod 3] (one or two)
    elements past the end; they read as [undefined] and become coordinates
    of the last sample. *)
Theorem flatten_reads_past_end (a : list float) :
  ((forall i, In i (starts (length a)) -> i + 2 < length a) <->
   length a mod 3 = 0) /\
  (length a mod 3 <> 0 ->
   exists i, In i (starts (length a)) /\ i < length a /\ length a <= i + 2 /\
     i + 3 - length a = 3 - length a mod 3 /\
     In (sample_at a i) (child_samples a) /\
     sz (sample_at a i) = Undef /\
     (length a mod 3 = 1 -> sy (sample_at a i) = Undef)).
Proof.
  set (len := length a).
  pose proof (Nat.div_mod_eq len 3) as Hdm. pose proof (Nat.mod_upper_bound len 3) as Hub.
  split.
  - split.
    + intros Hall. destruct (Nat.eq_dec (len mod 3) 0) as [|Hne]; [assumption|].
      exfalso. specialize (Hall (3 * (len / 3))).
      assert (Hin : In (3 * (len / 3)) (starts len)).
      { apply In_starts. split; [lia|]. rewrite Nat.mul_comm. apply Nat.Div0.mod_mul. }
      specialize (Hall Hin). lia.
    + intros Hz i Hi. apply In_starts in Hi. destruct Hi as [Hi Hm].
      pose proof (Nat.div_mod_eq i 3). lia.
  - intros Hne. exists (len - len mod 3).
    assert (Hin : In (len - len mod 3) (starts len)).
    { apply In_starts. split; [lia|].
      replace (len - len mod 3) with (3 * (len / 3)) by lia.
      rewrite Nat.mul_comm. apply Nat.Div0.mod_mul. }
    split; [exact Hin|]. split; [lia|]. split; [lia|]. split; [lia|].
    split; [unfold child_samples; apply in_map; exact Hin|].
    unfold sample_at, get; cbn [sy sz].
    rewrite (proj2 (nth_error_None a (len - len mod 3 + 2))) by (unfold len in *; lia).
    split; [reflexivity|]. intros Hone.
    rewrite (proj2 (nth_error_None a (len - len mod 3 + 1))) by (unfold len in *; lia).
    reflexivity.
Qed.

(** *** C6: the viewport of a render pass *)

(** C6 (confirmed). [render] scales left and width by the window width and
    bottom and height by the window height, sets the result as viewport and
    scissor, and draws; for [(0, 0.75, 0.25, 0.25)] in an 800 x 600 window
    the rectangle is [(0, 450, 200, 150)]. *)
Theorem render_viewport (s : world) (c : camname) (l b w h : float) :
  let r := mkRect (l * innerWidth s) (b * innerHeight s)
                  (w * innerWidth s) (h * innerHeight s) in
  viewport (rend (render s c l b w h)) = r /\
  scissor (rend (render s c l b w h)) = r /\
  clearColor (rend (render s c l b w h)) = 0x121212%Z /\
  passes (rend (render s c l b w h)) = passes (rend s) ++ [mkPass c r] /\
  viewport (rend (render (set_window s 800 600) c 0 0.75 0.25 0.25)) =
    mkRect 0 450 200 150 /\
  scissor (rend (render (set_window s 800 600) c 0 0.75 0.25 0.25)) =
    mkRect 0 450 200 150.
Proof. repeat split; reflexivity. Qed.

(** *** C7: the two cameras *)

(** C7 (confirmed). Both cameras are built with field of view 50, near 1,
    far 10 and aspect [innerWidth / innerHeight] at load time; [zoom] sets
    the position to [value * (1, 0.75, 1)], then overwrites z with 2, then
    looks at the origin; [dev] is zoomed by 8 and [main] by 3. *)
Theorem cameras_init (w h : float) :
  (forall c v,
     position (Cameras.zoom c v) = mkVec3 (1 * v) (0.75 * v) 2 /\
     target (Cameras.zoom c v) = origin /\
     fov (Cameras.zoom c v) = fov c /\ aspect (Cameras.zoom c v) = aspect c /\
     near (Cameras.zoom c v) = near c /\ far (Cameras.zoom c v) = far c /\
     projection (Cameras.zoom c v) = projection c) /\
  (forall c, c = Cameras.dev w h \/ c = Cameras.main w h ->
     fov c = 50%float /\ near c = 1%float /\ far c = 10%float /\
     aspect c = (w / h)%float /\ target c = origin /\ projection_fresh c) /\
  Cameras.dev w h = Cameras.zoom (PerspectiveCamera 50 (w / h) 1 10) 8 /\
  Cameras.main w h = Cameras.zoom (PerspectiveCamera 50 (w / h) 1 10) 3 /\
  position (Cameras.dev w h) = mkVec3 8 6 2 /\
  position (Cameras.main w h) = mkVec3 3 2.25 2.
Proof.
  split; [intros c v; repeat split; reflexivity|].
  split; [intros c [-> | ->]; repeat split; reflexivity|].
  repeat split; reflexivity.
Qed.

(** *** The event loop of the model-sampling build *)

Lemma render_frame_keeps (s : world) :
  children (render_frame s) = children s /\ cam_dev (render_frame s) = cam_dev s /\
  cam_main (render_frame s) = cam_main s /\ innerWidth (render_frame s) = innerWidth s /\
  innerHeight (render_frame s) = innerHeight s /\ loads (render_frame s) = loads s /\
  assets_settled (render_frame s) = assets_settled s /\
  obj_settled (render_frame s) = obj_settled s /\
  debugCamera (render_frame s) = debugCamera s.
Proof. destruct s. unfold render_frame. cbn. destruct debugCamera0; repeat split; reflexivity. Qed.

Lemma update_A_keeps (E : env) (s : world) (t : float) :
  children (update_A E s t) = children s /\
  loads (update_A E s t) = loads s /\
  assets_settled (update_A E s t) = assets_settled s /\
  obj_settled (update_A E s t) = obj_settled s /\
  innerWidth (update_A E s t) = innerWidth s /\
  innerHeight (update_A E s t) = innerHeight s /\
  aspect (cam_dev (update_A E s t)) = aspect (cam_dev s) /\
  aspect (cam_main (update_A E s t)) = aspect (cam_main s) /\
  (projection_fresh (cam_dev s) -> projection_fresh (cam_dev (update_A E s t))) /\
  (projection_fresh (cam_main s) -> projection_fresh (cam_main (update_A E s t))).
Proof.
  unfold update_A.
  destruct (render_frame_keeps (controls_update E (request_frame s)))
    as (-> & -> & -> & -> & -> & -> & -> & -> & _).
  unfold projection_fresh. repeat split; auto.
Qed.

Lemma onObjLoaded_keeps (E : env) (m : obj_model) (s : world) :
  cam_dev (onObjLoaded E m s) = cam_dev s /\ cam_main (onObjLoaded E m s) = cam_main s /\
  innerWidth (onObjLoaded E m s) = innerWidth s /\
  innerHeight (onObjLoaded E m s) = innerHeight s.
Proof.
  unfold onObjLoaded. destruct (objectInit_A E (scale_model m 0.02) (w_rng s)) as [bm br [n|e]];
    repeat split; reflexivity.
Qed.

Lemma step_A_aspect_inv (E : env) (s : world) (ev : event) :
  aspect_inv s -> aspect_inv (step_A E s ev).
Proof.
  unfold aspect_inv. intros (Hd & Hm & Pd & Pm). destruct ev as [t|w h|b|[|err]|m]; simpl.
  - destruct (update_A_keeps E s t) as (_ & _ & _ & _ & -> & -> & -> & -> & Fd & Fm).
    auto.
  - repeat split.
  - auto.
  - destruct (assets_settled s); auto.
  - destruct (assets_settled s); auto.
  - destruct (obj_settled s || negb (existsb is_obj_request (loads s)))%bool; [auto|].
    destruct (onObjLoaded_keeps E m (settle_obj s)) as (-> & -> & -> & ->). auto.
Qed.

Lemma run_A_aspect_inv (E : env) (evs : list event) : forall s,
  aspect_inv s -> aspect_inv (run_A E s evs).
Proof.
  induction evs as [|ev evs IH]; intros s H; simpl; [exact H|].
  apply IH, step_A_aspect_inv, H.
Qed.

(** C5 (confirmed). Handling a resize to [w x h] sets the aspect of both
    cameras to [w / h], recomputes both projection matrices and resizes the
    renderer. The invariant "both aspects equal the window's ratio and both
    projections are up to date" holds after the constructor and is kept by
    every event (frames, resizes, debug toggles, loads), so it holds after
    any sequence of events. *)
Theorem resize_aspect (E : env) (s : world) (w h : float) :
  aspect (cam_dev (step_A E s (EvResize w h))) = (w / h)%float /\
  aspect (cam_main (step_A E s (EvResize w h))) = (w / h)%float /\
  projection_fresh (cam_dev (step_A E s (EvResize w h))) /\
  projection_fresh (cam_main (step_A E s (EvResize w h))) /\
  size (rend (step_A E s (EvResize w h))) = (w, h) /\
  (forall cfg w0 h0 dbg r0 t evs,
     aspect_inv (run_A E (constructor_A E cfg w0 h0 dbg r0 t) evs)).
Proof.
  do 5 (split; [reflexivity|]).
  intros cfg w0 h0 dbg r0 t evs. apply run_A_aspect_inv.
  unfold constructor_A, aspect_inv.
  destruct (update_A_keeps E (startup cfg w0 h0 dbg r0) t)
    as (_ & _ & _ & _ & -> & -> & -> & -> & Fd & Fm).
  repeat split; [apply Fd | apply Fm]; reflexivity.
Qed.

(** *** C4: a rejected asset manifest *)

Definition rejected_inv (cfg : config) (s : world) : Prop :=
  assets_settled s = true /\ loads s = [ReqAssets "default"] /\
  children s = startup_children cfg.

Lemma step_A_rejected_inv (E : env) (cfg : config) (s : world) (ev : event) :
  rejected_inv cfg s -> rejected_inv cfg (step_A E s ev).
Proof.
  unfold rejected_inv. intros (Ha & Hl & Hc). destruct ev as [t|w h|b|r|m]; simpl.
  - destruct (update_A_keeps E s t) as (-> & -> & -> & _). auto.
  - auto.
  - auto.
  - rewrite Ha. auto.
  - rewrite Hl. simpl. rewrite orb_true_r. auto.
Qed.

(** C4 (confirmed). When the asset manifest load rejects, whatever frames,
    resizes, debug toggles or early OBJ callbacks came before it, the
    rejection only logs a warning: the scene still holds exactly the
    helpers and lights added at startup, and the only load ever started is
    the manifest's. Both stay so whatever events follow: no model and no
    particle mesh are added and the load is not retried. *)
Theorem assets_rejected_static_scene (E : env) (cfg : config) (w h : float)
  (dbg : bool) (r0 : renderer) (t : float) (err : String.string)
  (evs1 evs : list event) (Hno : existsb is_assets evs1 = false) :
  let s1 := run_A E (constructor_A E cfg w h dbg r0 t) evs1 in
  log (step_A E s1 (EvAssets (Rejected err))) = log s1 ++ [LogWarn err] /\
  children (step_A E s1 (EvAssets (Rejected err))) = startup_children cfg /\
  children (run_A E (step_A E s1 (EvAssets (Rejected err))) evs) = startup_children cfg /\
  loads (run_A E (step_A E s1 (EvAssets (Rejected err))) evs) = [ReqAssets "default"].
Proof.
  (* before the manifest settles: the startup scene and the manifest load *)
  set (P := fun s => assets_settled s = false /\ loads s = [ReqAssets "default"] /\
                     children s = startup_children cfg).
  assert (Hpre : forall evs s, existsb is_assets evs = false -> P s -> P (run_A E s evs)).
  { unfold run_A. intros evs0. induction evs0 as [|ev evs0 IH]; intros s Hn Hs;
      [exact Hs|].
    cbn [existsb] in Hn. apply orb_false_iff in Hn as [He Hn].
    cbn [fold_left]. apply IH; [exact Hn|]. unfold P in *.
    destruct Hs as (Ha & Hl & Hc).
    destruct ev as [t'|w' h'|b|r|m]; cbn [step_A]; try discriminate.
    - destruct (update_A_keeps E s t') as (-> & -> & -> & _). auto.
    - auto.
    - auto.
    - rewrite Hl. simpl. rewrite orb_true_r. auto. }
  assert (H0 : P (constructor_A E cfg w h dbg r0 t)).
  { unfold constructor_A, P.
    destruct (update_A_keeps E (startup cfg w h dbg r0) t) as (-> & -> & -> & _).
    auto. }
  destruct (Hpre evs1 _ Hno H0) as (Ha1 & Hl1 & Hc1).
  cbn zeta. set (s1 := run_A E (constructor_A E cfg w h dbg r0 t) evs1) in *.
  clearbody s1.
  assert (H1 : rejected_inv cfg (step_A E s1 (EvAssets (Rejected err)))).
  { cbn [step_A]. rewrite Ha1. unfold rejected_inv. destruct s1; cbn in *. auto. }
  assert (Hrun : forall evs s, rejected_inv cfg s -> rejected_inv cfg (run_A E s evs)).
  { induction evs0 as [|ev evs0 IH]; intros s Hs; simpl; [exact Hs|].
    apply IH, step_A_rejected_inv, Hs. }
  destruct (Hrun evs _ H1) as (_ & Hl & Hc).
  split; [|split; [apply H1|auto]].
  cbn [step_A]. rewrite Ha1. reflexivity.
Qed.

(** A run with a frame, a resize and a debug toggle before the rejection. *)
Lemma assets_rejected_static_scene_witness :
  existsb is_assets [EvFrame 1; EvResize 1024 768; EvToggle true] = false /\
  loads (run_A (env_of (fun _ => 0.5%float))
           (step_A (env_of (fun _ => 0.5%float))
              (run_A (env_of (fun _ => 0.5%float))
                 (constructor_A (env_of (fun _ => 0.5%float)) cfg3 800 600 false renderer0 0)
                 [EvFrame 1; EvResize 1024 768; EvToggle true])
              (EvAssets (Rejected "404")))
           [EvAssets Resolved; EvObjLoaded model_1]) = [ReqAssets "default"].
Proof.
  assert (Hno : existsb is_assets [EvFrame 1; EvResize 1024 768; EvToggle true] = false)
    by reflexivity.
  split; [exact Hno|].
  exact (proj2 (proj2 (proj2 (assets_rejected_static_scene (env_of (fun _ => 0.5%float))
    cfg3 800 600 false renderer0 0 "404" [EvFrame 1; EvResize 1024 768; EvToggle true]
    [EvAssets Resolved; EvObjLoaded model_1] Hno)))).
Defined.

(** *** The frame loop of the triangle build *)

Lemma list_set_nth_error {A} (l : list A) : forall i x,
  i < length l -> nth_error (list_set l i x) i = Some x.
Proof.
  induction l as [|y l IH]; intros [|i] x H; simpl in *; try lia; auto.
  apply IH. lia.
Qed.

Lemma list_set_length {A} (l : list A) : forall i x,
  length (list_set l i x) = length l.
Proof. induction l as [|y l IH]; intros [|i] x; simpl; auto. Qed.

Lemma list_set_set {A} (l : list A) : forall i x y,
  list_set (list_set l i x) i y = list_set l i y.
Proof. induction l as [|z l IH]; intros [|i] x y; simpl; f_equal; auto. Qed.

Lemma map_list_set {A B} (f : A -> B) (l : list A) : forall i x y,
  nth_error l i = Some y -> f x = f y -> map f (list_set l i x) = map f l.
Proof.
  induction l as [|z l IH]; intros [|i] x y H Hf; simpl in *; try discriminate.
  - injection H as ->. now rewrite Hf.
  - f_equal. eapply IH; eauto.
Qed.

Lemma controls_children (E : env) (s : world) :
  children (controls_update E (request_frame s)) = children s.
Proof. reflexivity. Qed.

Lemma startup_no_particles (cfg : config) (n : node) :
  In n (startup_children cfg) ->
  match kind n with KParticles _ _ _ => False | _ => True end.
Proof.
  unfold startup_children. rewrite in_app_iff. intros [Hh|Hl].
  - destruct (DEV_HELPERS cfg); simpl in Hh; [|contradiction].
    destruct Hh as [<-|[<-|[]]]; exact I.
  - apply in_map_iff in Hl. destruct Hl as [l [<- _]]. exact I.
Qed.

Lemma update_B_startup (E : env) (cfg : config) (w h : float) (dbg : bool)
  (r0 : renderer) (t : float) :
  snd (update_B E (startup cfg w h dbg r0) t) = Threw TypeError /\
  passes (rend (fst (update_B E (startup cfg w h dbg r0) t))) = passes r0.
Proof.
  unfold update_B. rewrite controls_children. cbn [children startup].
  destruct (nth_error (startup_children cfg) 3) as [n|] eqn:Hn; [|split; reflexivity].
  apply nth_error_In, startup_no_particles in Hn.
  destruct n as [k rot]; simpl in Hn |- *. destruct k; try contradiction; split; reflexivity.
Qed.

(** *** C3: render passes per frame *)

(** C3 (code_bug). In the model-sampling build every frame issues the
    passes of the flag: one pass of the main camera over the whole window
    when [debugCamera] is false, the debug camera over the whole window and
    then the main camera in [(0, 0.75, 0.25, 0.25)] when it is true; so a
    toggle to true makes the next frame issue 2 passes and a toggle to false
    1. The triangle build reads [scene.children[3]] before rendering (see C9):
    its first frame, run by the constructor with three startup children and
    [debugCamera] false, throws a TypeError and issues no pass. *)
Theorem frame_render_passes :
  (forall (E : env) (s : world) (t : float),
     passes (rend (update_A E s t)) =
       passes (rend s) ++ expected_passes (debugCamera s) (innerWidth s) (innerHeight s)) /\
  (forall (E : env) (s : world) (t : float) (b : bool),
     length (passes (rend (run_A E s [EvToggle b; EvFrame t]))) =
       length (passes (rend s)) + (if b then 2 else 1)) /\
  (forall (E : env) (t : float),
     snd (update_B E (startup cfg3 800 600 false renderer0) t) = Threw TypeError /\
     passes (rend (fst (update_B E (startup cfg3 800 600 false renderer0) t))) = []).
Proof.
  assert (Hpass : forall E s t,
     passes (rend (update_A E s t)) =
       passes (rend s) ++ expected_passes (debugCamera s) (innerWidth s) (innerHeight s)).
  { intros E s t. destruct s. unfold update_A, render_frame. cbn.
    destruct debugCamera0; cbn; rewrite <- ?app_assoc; reflexivity. }
  split; [exact Hpass|]. split.
  - intros E s t b. simpl. rewrite Hpass, length_app. cbn [debugCamera set_debugCamera].
    destruct b; reflexivity.
  - intros E t. apply update_B_startup.
Qed.

(** *** C9: [scene.children[3]] in the triangle build *)

(** C9 (confirmed). Every frame of the triangle build reads
    [scene.children[3]]. With fewer than four children the read gives
    [undefined] and writing its [rotation.y] throws a TypeError before any
    render pass. Every frame before the particle mesh is added throws: a
    scene of startup helpers and lights has no shader uniforms at index 3,
    if it has an index 3 at all. When index 3 is the particle mesh, the
    frame sets its rotation and its [time] and [sineTime] uniforms and
    renders. *)
Theorem update_B_children3 (E : env) (s : world) (t : float)
  (Hlen : length (children s) < 4) :
  update_B E s t = (controls_update E (request_frame s), Threw TypeError) /\
  passes (rend (fst (update_B E s t))) = passes (rend s) /\
  (forall cfg w h dbg r0,
     snd (update_B E (startup cfg w h dbg r0) t) = Threw TypeError) /\
  (forall s' g tr u rot,
     nth_error (children s') 3 = Some (mkNode (KParticles g tr u) rot) ->
     snd (update_B E s' t) = Done /\
     nth_error (children (fst (update_B E s' t))) 3 =
       Some (mkNode (KParticles g tr
               (mkUniforms (t * 0.005) (js_sin E (t * 0.005 * 0.05))))
             (t * 0.0005))%float).
Proof.
  assert (Hnone : update_B E s t = (controls_update E (request_frame s), Threw TypeError)).
  { unfold update_B. rewrite controls_children.
    rewrite (proj2 (nth_error_None (children s) 3)) by lia. reflexivity. }
  split; [exact Hnone|]. split; [rewrite Hnone; reflexivity|]. split.
  - intros. apply update_B_startup.
  - intros s' g tr u rot H3.
    assert (Hl : 3 < length (children s')) by (apply nth_error_Some; congruence).
    unfold update_B. rewrite controls_children, H3. cbn [kind rot_y].
    split; [reflexivity|].
    cbn [fst].
    match goal with
    | |- context [children (render_frame ?x)] => rewrite (proj1 (render_frame_keeps x))
    end.
    cbn [children set_children]. rewrite list_set_set.
    apply list_set_nth_error. exact Hl.
Qed.

Lemma update_B_children3_witness :
  length (children (startup cfg3 800 600 false renderer0)) < 4 /\
  snd (update_B (env_of (fun _ => 0.5%float)) (startup cfg3 800 600 false renderer0) 0)
    = Threw TypeError.
Proof.
  assert (H : length (children (startup cfg3 800 600 false renderer0)) < 4)
    by (simpl; lia).
  split; [exact H|].
  destruct (update_B_children3 (env_of (fun _ => 0.5%float))
              (startup cfg3 800 600 false renderer0) 0 H) as [-> _].
  reflexivity.
Defined.

(** *** C8: the orientation attributes *)

Lemma instances_B_closed (E : env) : forall n a,
  orientationsStart (instances_B E n a) = orientationsStart a ++
    flat_map (fun j => v4_list (v4_normalize (q_start E (rng a + 15 * j)))) (seq 0 n) /\
  orientationsEnd (instances_B E n a) = orientationsEnd a ++
    flat_map (fun j => v4_list (v4_normalize (q_end E (rng a + 15 * j)))) (seq 0 n) /\
  rng (instances_B E n a) = rng a + 15 * n.
Proof.
  induction n as [|n IH]; intros a.
  - simpl. rewrite !app_nil_r. split; [|split]; reflexivity || lia.
  - simpl instances_B. destruct (IH (instance_B E a)) as (Hs & He & Hr).
    rewrite Hs, He, Hr. cbn [orientationsStart orientationsEnd rng instance_B].
    rewrite !flat_map_seq_S, <- !app_assoc, !Nat.add_0_r.
    split; [|split; [|lia]]; f_equal; f_equal; apply flat_map_ext; intros j;
      do 3 f_equal; lia.
Qed.

Lemma obj_settled_step (E : env) (s : world) (ev : event) :
  obj_settled s = true ->
  obj_settled (step_A E s ev) = true /\ children (step_A E s ev) = children s.
Proof.
  intros H. destruct ev as [t|w h|b|[|err]|m]; simpl.
  - destruct (update_A_keeps E s t) as (-> & _ & _ & -> & _). auto.
  - auto.
  - auto.
  - destruct (assets_settled s); simpl; auto.
  - destruct (assets_settled s); simpl; auto.
  - rewrite H. simpl. auto.
Qed.

Lemma update_B_geometries (E : env) (s : world) (t : float) :
  map mesh_geometry (children (fst (update_B E s t))) = map mesh_geometry (children s).
Proof.
  unfold update_B. rewrite controls_children.
  destruct (nth_error (children s) 3) as [o|] eqn:Ho; [|reflexivity].
  destruct o as [k rot]. cbn [kind rot_y].
  destruct k; cbn [fst children set_children];
    try (apply (map_list_set _ _ _ _ _ Ho); reflexivity).
  rewrite (proj1 (render_frame_keeps _)). cbn [children set_children].
  rewrite list_set_set. apply (map_list_set _ _ _ _ _ Ho). reflexivity.
Qed.

(** C8 (corrected). In the model-sampling build every component of every
    instance's start and end orientation is 0.5, since
    [normalize(.5, .5, .5, .5) = (.5, .5, .5, .5)] exactly. After the model
    is loaded no event changes the scene graph, so these attributes are
    never rewritten. In the triangle build the start and end orientations
    of instance [i] are the normalizations of two vectors of
    [Math.random() * 2 - 1] values, rounded to single precision. Its frames
    rewrite rotation and uniforms only, never a geometry. *)
Theorem orientations_by_build (E : env) (m : obj_model) (r : nat) (g : geometry)
  (tr : bool) (u : uniforms)
  (Hok : b_mesh (objectInit_A E m r) = inl (mk (KParticles g tr u))) :
  claim_C8 g /\
  v4_normalize q_half = q_half /\
  (forall s evs, obj_settled s = true -> children (run_A E s evs) = children s) /\
  (forall E' r' i k, i < 5000 -> k < 4 ->
     mesh_geometry (fst (objectInit_B E' r')) =
       Some (to_geometry 5000 triangle (instances_B E' 5000 (empty_attrs r'))) /\
     nth (4 * i + k) (g_orientationStart
        (to_geometry 5000 triangle (instances_B E' 5000 (empty_attrs r')))) 0%float =
       fround (nth k (v4_list (v4_normalize (q_start E' (r' + 15 * i)))) 0%float) /\
     nth (4 * i + k) (g_orientationEnd
        (to_geometry 5000 triangle (instances_B E' 5000 (empty_attrs r')))) 0%float =
       fround (nth k (v4_list (v4_normalize (q_end E' (r' + 15 * i)))) 0%float)) /\
  (forall E' s t,
     map mesh_geometry (children (fst (update_B E' s t))) = map mesh_geometry (children s)).
Proof.
  split.
  - apply objectInit_gen_mesh in Hok. destruct Hok as [positions [_ [_ Heq]]].
    injection Heq as -> _ _. intros i k Hi Hk. cbn [g_orientationStart g_orientationEnd
      to_geometry maxInstancedCount] in Hi |- *.
    rewrite !nth_Float32Array.
    destruct (attrs_A_orientations E (snd (flatten m)) _ r i k Hi Hk) as [Hs He].
    cbn [snd flatten] in Hs, He. rewrite Hs, He. split; reflexivity.
  - split; [vm_compute; reflexivity|]. split.
    + intros s evs. revert s. induction evs as [|ev evs IH]; intros s Hs; [reflexivity|].
      simpl. destruct (obj_settled_step E s ev Hs) as [Hs' Hc].
      rewrite IH by exact Hs'. exact Hc.
    + split; [|exact update_B_geometries].
      intros E' r' i k Hi Hk. split; [reflexivity|].
      destruct (instances_B_closed E' 5000 (empty_attrs r')) as (Hs & He & _).
      cbn [g_orientationStart g_orientationEnd to_geometry].
      rewrite !nth_Float32Array, Hs, He. cbn [orientationsStart orientationsEnd empty_attrs rng app].
      rewrite !(nth_flat_map_seq _ 4) by (auto; intros; reflexivity).
      split; reflexivity.
Qed.

Lemma orientations_by_build_witness :
  exists g tr u,
    b_mesh (objectInit_A (env_of (fun _ => 0.5%float)) model_15012 0) =
      inl (mk (KParticles g tr u)) /\ claim_C8 g.
Proof.
  destruct sphere1_positions as [positions Hs].
  pose proof (objectInit_gen_ok (env_of (fun _ => 0.5%float)) 15012 model_15012 0
                positions Hs model_15012_pool) as Hb.
  eexists _, _, _.
  assert (Hm : b_mesh (objectInit_A (env_of (fun _ => 0.5%float)) model_15012 0) =
    inl (mk (KParticles (to_geometry 15012 positions
      (attrs_A (env_of (fun _ => 0.5%float)) (snd (flatten model_15012)) 15012 0))
      false initial_uniforms)))
    by (unfold objectInit_A; rewrite Hb; reflexivity).
  split; [exact Hm|].
  apply (orientations_by_build _ _ _ _ _ _ Hm).
Defined.

(** C8, as stated, fails for the triangle build: when the 8th
    [Math.random()] call returns 0.75 and the others 0.5, instance 0 starts
    at [normalize(0.5, 0, 0, 0) = (1, 0, 0, 0)], not [(.5, .5, .5, .5)]. *)
Lemma objectInit_B_random_orientation :
  exists g,
    mesh_geometry (fst (objectInit_B
      (env_of (fun k => if Nat.eqb k 7 then 0.75%float else 0.5%float)) 0)) = Some g /\
    nth 0 (g_orientationStart g) 0%float = 1%float /\
    ~ claim_C8 g.
Proof.
  set (E := env_of (fun k => if Nat.eqb k 7 then 0.75%float else 0.5%float)).
  exists (to_geometry 5000 triangle (instances_B E 5000 (empty_attrs 0))).
  split; [reflexivity|].
  assert (H0 : 0 < 5000) by (apply Nat.ltb_lt; reflexivity).
  assert (Hc : nth (4 * 0 + 0) (g_orientationStart
                 (to_geometry 5000 triangle (instances_B E 5000 (empty_attrs 0)))) 0%float
               = 1%float).
  { destruct (instances_B_closed E 5000 (empty_attrs 0)) as (Hs & _ & _).
    cbn [g_orientationStart to_geometry]. rewrite nth_Float32Array, Hs.
    cbn [orientationsStart empty_attrs rng app].
    rewrite (nth_flat_map_seq _ 4) by (auto; intros; reflexivity).
    vm_compute. reflexivity. }
  split; [exact Hc|].
  intros Hclaim. destruct (Hclaim 0 0 H0 ltac:(lia)) as [Hs _].
  rewrite Hc in Hs. apply (f_equal (fun x => PrimFloat.eqb x 1%float)) in Hs.
  vm_compute in Hs. discriminate.
Qed.

(** *** Further properties of the code *)


Lemma sphere_fold_None (vs : list vec3) (fs : list face) :
  fold_left (fun acc f =>
      push_vertex vs (fc f) (push_vertex vs (fb f) (push_vertex vs (fa f) acc)))
    fs None = None.
Proof. induction fs as [|f fs IH]; simpl; auto. Qed.

Lemma push_vertex_in (vs : list vec3) k ps :
  push_vertex vs k (Some ps) =
  if Nat.ltb k (length vs) then Some (ps ++ vlist (nth k vs origin)) else None.
Proof.
  unfold push_vertex. destruct (Nat.ltb_spec k (length vs)) as [H|H].
  - rewrite (nth_error_nth' vs origin H). reflexivity.
  - rewrite (proj2 (nth_error_None vs k) H). reflexivity.
Qed.

Lemma sphere_fold_Some (vs : list vec3) (fs : list face) : forall ps,
  fold_left (fun acc f =>
      push_vertex vs (fc f) (push_vertex vs (fb f) (push_vertex vs (fa f) acc)))
    fs (Some ps) =
  if forallb (face_in_range (length vs)) fs
  then Some (ps ++ flat_map (face_positions vs) fs) else None.
Proof.
  induction fs as [|f fs IH]; intros ps; cbn [fold_left forallb flat_map].
  - rewrite app_nil_r. reflexivity.
  - unfold face_in_range. rewrite push_vertex_in.
    destruct (Nat.ltb (fa f) (length vs)); cbn [andb]; [|apply sphere_fold_None].
    rewrite push_vertex_in.
    destruct (Nat.ltb (fb f) (length vs)); cbn [andb]; [|apply sphere_fold_None].
    rewrite push_vertex_in.
    destruct (Nat.ltb (fc f) (length vs)); cbn [andb]; [|apply sphere_fold_None].
    rewrite IH. destruct (forallb _ fs); [|reflexivity].
    unfold face_positions. rewrite !app_assoc. reflexivity.
Qed.

(** [box.faces.forEach] in [objectInit] (model-sampling build): the loop
    succeeds exactly when every face's three vertex indices are in range of
    [box.vertices], and then pushes the x, y, z of vertices a, b, c of each
    face in order; otherwise it throws. *)
Theorem sphere_positions_faces (box : sphere_geometry) :
  sphere_positions box =
  if forallb (face_in_range (length (vertices box))) (faces box)
  then Some (flat_map (face_positions (vertices box)) (faces box)) else None.
Proof. unfold sphere_positions. apply sphere_fold_Some. Qed.

Lemma length_loop_starts (len : nat) : forall fuel i,
  length (loop_starts len i fuel) = Nat.min fuel ((len - i + 2) / 3).
Proof.
  induction fuel as [|f IH]; intros i; [reflexivity|].
  cbn [loop_starts]. destruct (Nat.ltb_spec i len) as [H|H].
  - cbn [length]. rewrite IH.
    destruct (Nat.le_gt_cases 3 (len - i)) as [H3|H3].
    + replace (len - i + 2) with ((len - (i + 3) + 2) + 1 * 3) by lia.
      rewrite Nat.div_add by lia. lia.
    + replace (len - (i + 3) + 2) with 2 by lia.
      replace ((len - i + 2) / 3) with 1.
      * reflexivity.
      * apply Nat.div_unique with (len - i - 1); lia.
  - replace (len - i + 2) with 2 by lia. reflexivity.
Qed.

Lemma length_starts (len : nat) : length (starts len) = (len + 2) / 3.
Proof.
  unfold starts. rewrite length_loop_starts, Nat.sub_0_r.
  apply Nat.min_r. destruct len as [|len]; [reflexivity|].
  apply Nat.Div0.div_le_upper_bound; lia.
Qed.

(** The [targetObject.children.forEach] loop of [objectInit]: a mesh whose
    position array has [len] entries contributes [ceil(len / 3)] samples to
    [targetOffsets]; every mesh is set to wireframe, and its positions and
    the model's scale are untouched. *)
Theorem flatten_pool (m : obj_model) :
  length (snd (flatten m)) =
    list_sum (map (fun c => (length (pos_array c) + 2) / 3) (mchildren m)) /\
  scale (fst (flatten m)) = scale m /\
  map pos_array (mchildren (fst (flatten m))) = map pos_array (mchildren m) /\
  forallb wireframe (mchildren (fst (flatten m))) = true.
Proof.
  destruct m as [sc cs]. cbn [flatten fst snd scale mchildren].
  split; [|split; [reflexivity|split]].
  - induction cs as [|c cs IH]; [reflexivity|].
    cbn [flat_map map list_sum]. rewrite length_app, IH. unfold child_samples.
    rewrite length_map, length_starts. reflexivity.
  - rewrite map_map. reflexivity.
  - induction cs as [|c cs IH]; [reflexivity|]. exact IH.
Qed.

Lemma resize_keeps (s : world) (w h : float) :
  let s' := onResize (set_window s w h) in
  children s' = children s /\ loads s' = loads s /\ log s' = log s /\
  assets_settled s' = assets_settled s /\ obj_settled s' = obj_settled s /\
  frames_requested s' = frames_requested s /\ passes (rend s') = passes (rend s) /\
  debugCamera s' = debugCamera s.
Proof. destruct s; repeat split. Qed.

Lemma render_frame_frames (s : world) :
  frames_requested (render_frame s) = frames_requested s /\
  log (render_frame s) = log s.
Proof. unfold render_frame. destruct (debugCamera s); split; reflexivity. Qed.

Lemma onObjLoaded_frames (E : env) (m : obj_model) (s : world) :
  frames_requested (onObjLoaded E m s) = frames_requested s /\
  loads (onObjLoaded E m s) = loads s /\
  assets_settled (onObjLoaded E m s) = assets_settled s /\
  obj_settled (onObjLoaded E m s) = obj_settled s.
Proof. unfold onObjLoaded. destruct (b_mesh _); repeat split. Qed.

Lemma step_A_frames (E : env) (s : world) (ev : event) :
  frames_requested (step_A E s ev) =
    frames_requested s + (if is_frame ev then 1 else 0).
Proof.
  destruct ev as [t|w h|b|[|err]|m]; cbn [step_A is_frame].
  - unfold update_A. rewrite (proj1 (render_frame_frames _)). cbn. lia.
  - rewrite (proj1 (proj2 (proj2 (proj2 (proj2 (proj2 (resize_keeps s w h))))))). lia.
  - destruct s; cbn; lia.
  - destruct (assets_settled s); destruct s; cbn; lia.
  - destruct (assets_settled s); destruct s; cbn; lia.
  - destruct (_ || _)%bool; [lia|].
    rewrite (proj1 (onObjLoaded_frames _ _ _)). destruct s; cbn; lia.
Qed.

Lemma frame_B_frames (E : env) (s : world) (t : float) :
  frames_requested (frame_B E s t) = S (frames_requested s).
Proof.
  unfold frame_B, update_B. cbn [children controls_update request_frame set_cams].
  destruct (nth_error (children s) 3) as [[k rot]|]; [|reflexivity].
  destruct k; try reflexivity. cbn -[render_frame].
  rewrite (proj1 (render_frame_frames _)). reflexivity.
Qed.

Lemma step_B_frames (E : env) (s : world) (ev : event) :
  frames_requested (step_B E s ev) =
    frames_requested s + (if is_frame ev then 1 else 0).
Proof.
  destruct ev as [t|w h|b|[|err]|m]; cbn [step_B is_frame].
  - rewrite frame_B_frames. lia.
  - rewrite (proj1 (proj2 (proj2 (proj2 (proj2 (proj2 (resize_keeps s w h))))))). lia.
  - destruct s; cbn; lia.
  - destruct (assets_settled s); [lia|]. destruct s; cbn; lia.
  - destruct (assets_settled s); destruct s; cbn; lia.
  - lia.
Qed.

(** [update] calls [requestAnimationFrame] once, first, in both builds: it
    re-arms the loop exactly once per frame, whether the frame throws or
    not; no other event requests a frame. *)
Theorem frames_requested_count (E : env) (evs : list event) : forall s,
  frames_requested (run_A E s evs) = frames_requested s + length (filter is_frame evs) /\
  frames_requested (run_B E s evs) = frames_requested s + length (filter is_frame evs).
Proof.
  unfold run_A, run_B.
  induction evs as [|ev evs IH]; intros s; cbn [fold_left filter length].
  - lia.
  - destruct (IH (step_A E s ev)) as [HA _]. destruct (IH (step_B E s ev)) as [_ HB].
    rewrite HA, HB, step_A_frames, step_B_frames.
    destruct (is_frame ev); cbn [length]; lia.
Qed.


Lemma step_A_inv (E : env) (cfg : config) (s : world) (ev : event) :
  inv_A cfg s -> inv_A cfg (step_A E s ev).
Proof.
  unfold inv_A. intros (Hl & Hl2 & Hc & Hc2). destruct ev as [t|w h|b|[|err]|m]; cbn [step_A].
  - destruct (update_A_keeps E s t) as (-> & -> & -> & -> & _).
    repeat split; auto.
  - destruct (resize_keeps s w h) as (-> & -> & _ & -> & -> & _).
    repeat split; auto.
  - destruct s; repeat split; auto.
  - case_eq (assets_settled s); intros Ha; [tauto|].
    specialize (Hl Ha). destruct s; cbn in *; subst.
    repeat split; auto; discriminate.
  - case_eq (assets_settled s); intros Ha; [tauto|].
    destruct s; cbn in *; repeat split; auto; discriminate.
  - destruct (obj_settled s || negb (existsb is_obj_request (loads s)))%bool eqn:Ho;
      [repeat split; auto|].
    apply orb_false_iff in Ho as [Ho _]. specialize (Hc Ho).
    destruct (onObjLoaded_frames E m (settle_obj s)) as (_ & -> & -> & ->).
    cbn [loads assets_settled obj_settled settle_obj].
    repeat split; auto; [discriminate|]. right.
    unfold onObjLoaded. destruct (b_mesh _) as [mesh|e] eqn:Hb.
    + right. unfold objectInit_A in Hb. apply objectInit_gen_mesh in Hb.
      destruct Hb as (ps & _ & _ & ->).
      do 4 eexists. cbn [children set_children set_target settle_obj].
      rewrite Hc. reflexivity.
    + left. eexists. cbn [children add_log set_children set_target settle_obj].
      rewrite Hc. reflexivity.
Qed.

Lemma run_A_inv (E : env) (cfg : config) (evs : list event) : forall s,
  inv_A cfg s -> inv_A cfg (run_A E s evs).
Proof.
  unfold run_A. induction evs as [|ev evs IH]; intros s Hs; [exact Hs|].
  apply IH, step_A_inv, Hs.
Qed.

Lemma startup_inv_A (cfg : config) w h dbg r0 : inv_A cfg (startup cfg w h dbg r0).
Proof. repeat split; auto. Qed.

(** The model-sampling build starts the OBJ load at most once, and only
    after the asset promise resolved. *)
Theorem obj_load_started_once (E : env) (cfg : config) (w h : float) (dbg : bool)
  (r0 : renderer) (evs : list event) :
  loads (run_A E (startup cfg w h dbg r0) evs) = [ReqAssets "default"] \/
  loads (run_A E (startup cfg w h dbg r0) evs) = [ReqAssets "default"; ReqObj obj_path].
Proof. apply (run_A_inv E cfg evs _ (startup_inv_A cfg w h dbg r0)). Qed.

(** The scene of the model-sampling build is always the startup helpers
    and lights, followed by nothing, by the model alone (when [objectInit]
    throws), or by the model and then the particle mesh: the mesh is added
    at most once and is then the last child. *)
Theorem scene_children_A (E : env) (cfg : config) (w h : float) (dbg : bool)
  (r0 : renderer) (evs : list event) :
  let s := run_A E (startup cfg w h dbg r0) evs in
  children s = startup_children cfg \/
  (exists M, children s = startup_children cfg ++ [mk (KModel M)]) \/
  (exists M g tr u, children s =
     startup_children cfg ++ [mk (KModel M); mk (KParticles g tr u)]).
Proof. apply (run_A_inv E cfg evs _ (startup_inv_A cfg w h dbg r0)). Qed.

Lemma render_frame_passes (s : world) :
  passes (rend (render_frame s)) =
    passes (rend s) ++ expected_passes (debugCamera s) (innerWidth s) (innerHeight s).
Proof.
  destruct s as [c d m dbg W H rd lg ld sa so rg fr tg]. unfold render_frame.
  cbn. destruct dbg; cbn; rewrite <- ?app_assoc; reflexivity.
Qed.

Lemma list_set_app_l {A} (pre : list A) : forall post i x,
  i < length pre -> list_set (pre ++ post) i x = list_set pre i x ++ post.
Proof.
  induction pre as [|y pre IH]; intros post [|i] x H; cbn in *; try lia; auto.
  f_equal. apply IH. lia.
Qed.

Lemma list_set_app_len {A} (pre : list A) : forall x y,
  list_set (pre ++ [x]) (length pre) y = pre ++ [y].
Proof. induction pre as [|z pre IH]; intros x y; cbn; f_equal; auto. Qed.

Lemma startup_kind3 (cfg : config) (pre : list node) (o : node) :
  map kind pre = map kind (startup_children cfg) ->
  nth_error pre 3 = Some o ->
  match kind o with KParticles _ _ _ => False | _ => True end.
Proof.
  intros Hk Ho.
  assert (Hm : nth_error (map kind (startup_children cfg)) 3 = Some (kind o))
    by (rewrite <- Hk, nth_error_map, Ho; reflexivity).
  rewrite nth_error_map in Hm.
  destruct (nth_error (startup_children cfg) 3) as [n|] eqn:Hn; [|discriminate].
  injection Hm as <-. apply (startup_no_particles cfg). eapply nth_error_In. exact Hn.
Qed.


Lemma update_B_bad (E : env) (cfg : config) (s : world) (t : float) :
  length (startup_children cfg) <> 3 -> inv_B cfg s ->
  snd (update_B E s t) = Threw TypeError /\
  passes (rend (fst (update_B E s t))) = passes (rend s) /\
  assets_settled (fst (update_B E s t)) = assets_settled s /\
  inv_B cfg (fst (update_B E s t)).
Proof.
  intros H3 (pre & post & Hc & Hk & Hp & Hs).
  assert (Hlen : length pre = length (startup_children cfg))
    by (rewrite <- (length_map kind pre), Hk, length_map; reflexivity).
  unfold update_B. rewrite controls_children, Hc.
  destruct (Nat.lt_ge_cases 3 (length pre)) as [Hlt|Hge].
  - rewrite nth_error_app1 by exact Hlt.
    destruct (nth_error pre 3) as [o|] eqn:Ho;
      [|apply nth_error_None in Ho; lia].
    pose proof (startup_kind3 cfg pre o Hk Ho) as Hnp.
    destruct o as [k rot]. cbn [kind rot_y] in *.
    destruct k; try contradiction; cbn [fst snd];
      (split; [reflexivity|split; [reflexivity|split; [reflexivity|]]]);
      eexists _, post;
      (split; [cbn [children set_children]; apply list_set_app_l; exact Hlt|]);
      (split; [rewrite <- Hk; apply (map_list_set _ _ _ _ _ Ho); reflexivity|]);
      auto.
  - rewrite (proj2 (nth_error_None (pre ++ post) 3))
      by (rewrite length_app; lia).
    cbn [fst snd]. split; [reflexivity|split; [reflexivity|split; [reflexivity|]]].
    exists pre, post. auto.
Qed.

Lemma onAssetsLoaded_B_children (E : env) (s : world) :
  children (onAssetsLoaded_B E s) = children s ++ [fst (objectInit_B E (w_rng s))] /\
  assets_settled (onAssetsLoaded_B E s) = assets_settled s.
Proof. unfold onAssetsLoaded_B. destruct (objectInit_B _ _). split; reflexivity. Qed.

Lemma step_B_bad (E : env) (cfg : config) (s : world) (ev : event) :
  length (startup_children cfg) <> 3 -> inv_B cfg s -> inv_B cfg (step_B E s ev).
Proof.
  intros H3 Hs. destruct ev as [t|w h|b|[|err]|m]; cbn [step_B]; unfold inv_B.
  - destruct (update_B_bad E cfg s t H3 Hs) as (Ho & _ & Ha & (pre & post & Hc & Hi)).
    unfold frame_B. destruct (update_B E s t) as [s' o]. cbn [snd fst] in *. subst o.
    exists pre, post. exact (conj Hc Hi).
  - destruct Hs as (pre & post & Hc & Hi).
    destruct (resize_keeps s w h) as (-> & _ & _ & -> & _). exists pre, post. auto.
  - destruct Hs as (pre & post & Hc & Hi). exists pre, post. destruct s; auto.
  - case_eq (assets_settled s); intros Ha; [exact Hs|].
    destruct Hs as (pre & post & Hc & Hk & Hp & Hn). specialize (Hn Ha). subst post.
    destruct (onAssetsLoaded_B_children E (settle_assets s)) as [-> ->].
    exists pre, [fst (objectInit_B E (w_rng (settle_assets s)))].
    cbn [children settle_assets assets_settled]. rewrite Hc, app_nil_r.
    repeat split; auto. discriminate.
  - case_eq (assets_settled s); intros Ha; [exact Hs|].
    destruct Hs as (pre & post & Hc & Hk & Hp & Hn). exists pre, post.
    destruct s; cbn in *; repeat split; auto.
  - exact Hs.
Qed.

Lemma update_B_log (E : env) (s : world) (t : float) :
  log (fst (update_B E s t)) = log s /\
  assets_settled (fst (update_B E s t)) = assets_settled s.
Proof.
  unfold update_B. rewrite controls_children.
  destruct (nth_error (children s) 3) as [[k rot]|]; [|split; reflexivity].
  destruct k; cbn [kind fst]; try (split; reflexivity).
  rewrite (proj2 (render_frame_frames _)).
  rewrite (proj1 (proj2 (proj2 (proj2 (proj2 (proj2 (proj2 (render_frame_keeps _)))))))).
  split; reflexivity.
Qed.

(** In the triangle build, if the scene does not have exactly three
    children before the mesh is added, every frame throws a TypeError at
    [scene.children[3]]: no pass is rendered and the error is uncaught,
    whatever events came before. *)
Theorem triangle_frames_throw (E : env) (cfg : config) (w h : float) (dbg : bool)
  (r0 : renderer) (evs : list event) (t : float)
  (H3 : length (startup_children cfg) <> 3) :
  let s := run_B E (startup cfg w h dbg r0) evs in
  snd (update_B E s t) = Threw TypeError /\
  passes (rend (fst (update_B E s t))) = passes (rend s) /\
  log (frame_B E s t) = log s ++ [LogUncaught TypeError].
Proof.
  assert (Hinv : forall evs s, inv_B cfg s -> inv_B cfg (run_B E s evs)).
  { unfold run_B. intros evs'. induction evs' as [|ev evs' IH]; intros s Hs;
      [exact Hs|]. apply IH, step_B_bad; assumption. }
  cbn zeta.
  assert (Hs0 : inv_B cfg (startup cfg w h dbg r0))
    by (exists (startup_children cfg), []; rewrite app_nil_r; repeat split; auto).
  pose proof (Hinv evs _ Hs0) as Hs.
  destruct (update_B_bad E cfg _ t H3 Hs) as (Ho & Hp & _).
  split; [exact Ho|split; [exact Hp|]].
  pose proof (proj1 (update_B_log E (run_B E (startup cfg w h dbg r0) evs) t)) as Hl.
  unfold frame_B. destruct (update_B E _ t) as [s' o]. cbn [snd fst] in *. subst o.
  cbn [log add_log]. rewrite Hl. reflexivity.
Qed.

Lemma set_children_twice (s : world) (a b : list node) :
  set_children (set_children s a) b = set_children s b.
Proof. reflexivity. Qed.

Lemma update_B_mesh3 (E : env) (s : world) (t : float) pre g tr u rot :
  children s = pre ++ [mkNode (KParticles g tr u) rot] -> length pre = 3 ->
  update_B E s t =
    (render_frame (set_children (controls_update E (request_frame s))
       (pre ++ [mkNode (KParticles g tr
                  (mkUniforms (t * 0.005) (js_sin E (t * 0.005 * 0.05))))
                (t * 0.0005)])), Done)%float.
Proof.
  intros Hc Hl. unfold update_B. rewrite controls_children, Hc.
  rewrite nth_error_app2 by lia. rewrite Hl. cbn [Nat.sub nth_error kind rot_y].
  f_equal. f_equal. cbn [children set_children].
  rewrite list_set_set, <- Hl, set_children_twice. f_equal. apply list_set_app_len.
Qed.

(** In the triangle build with exactly three startup children, frames
    before the asset promise settles throw; after it resolved, every frame
    completes: it renders its passes and leaves the particle mesh at index
    3 with rotation [t * 0.0005] and uniforms [time = t * 0.005],
    [sineTime = sin(time * 0.05)]. *)
Theorem triangle_frames_run (E : env) (cfg : config) (w h : float) (dbg : bool)
  (r0 : renderer) (evs1 evs2 : list event) (t : float)
  (H3 : length (startup_children cfg) = 3)
  (Hno : existsb is_assets evs1 = false) :
  snd (update_B E (run_B E (startup cfg w h dbg r0) evs1) t) = Threw TypeError /\
  let s := run_B E (startup cfg w h dbg r0) (evs1 ++ EvAssets Resolved :: evs2) in
  snd (update_B E s t) = Done /\
  passes (rend (fst (update_B E s t))) =
    passes (rend s) ++ expected_passes (debugCamera s) (innerWidth s) (innerHeight s) /\
  exists g tr,
    nth_error (children (fst (update_B E s t))) 3 =
      Some (mkNode (KParticles g tr
              (mkUniforms (t * 0.005) (js_sin E (t * 0.005 * 0.05))))
            (t * 0.0005))%float.
Proof.
  (* before the asset promise settles: the startup scene, unchanged *)
  assert (Hpre : forall evs s, existsb is_assets evs = false ->
            children s = startup_children cfg -> assets_settled s = false ->
            children (run_B E s evs) = startup_children cfg /\
            assets_settled (run_B E s evs) = false).
  { unfold run_B. intros evs. induction evs as [|ev evs IH]; intros s Hn Hc Ha;
      [auto|].
    cbn [existsb] in Hn. apply orb_false_iff in Hn as [He Hn].
    cbn [fold_left]. apply IH; [exact Hn| |];
      destruct ev as [t'|w' h'|b|r|m]; try discriminate; cbn [step_B].
    - unfold frame_B, update_B. rewrite controls_children, Hc.
      rewrite (proj2 (nth_error_None _ 3)) by lia. exact Hc.
    - rewrite (proj1 (resize_keeps s w' h')). exact Hc.
    - destruct s; exact Hc.
    - exact Hc.
    - unfold frame_B, update_B. rewrite controls_children, Hc.
      rewrite (proj2 (nth_error_None _ 3)) by lia. exact Ha.
    - rewrite (proj1 (proj2 (proj2 (proj2 (resize_keeps s w' h'))))). exact Ha.
    - destruct s; exact Ha.
    - exact Ha. }
  (* after it resolved: the startup nodes, then the particle mesh *)
  set (Q := fun s => assets_settled s = true /\ exists pre g tr u rot,
              children s = pre ++ [mkNode (KParticles g tr u) rot] /\ length pre = 3).
  assert (Hpost : forall evs s, Q s -> Q (run_B E s evs)).
  { unfold run_B. intros evs. induction evs as [|ev evs IH]; intros s Hs; [exact Hs|].
    cbn [fold_left]. apply IH. unfold Q in *.
    destruct Hs as (Ha & pre & g & tr & u & rot & Hc & Hl).
    destruct ev as [t'|w' h'|b|r|m]; cbn [step_B].
    - unfold frame_B. rewrite (update_B_mesh3 E s t' pre g tr u rot Hc Hl).
      split.
      + rewrite (proj1 (proj2 (proj2 (proj2 (proj2 (proj2 (proj2 (render_frame_keeps _)))))))).
        exact Ha.
      + rewrite (proj1 (render_frame_keeps _)). do 5 eexists. split; [reflexivity|exact Hl].
    - destruct (resize_keeps s w' h') as (-> & _ & _ & -> & _).
      split; [exact Ha|]. do 5 eexists. split; [exact Hc|exact Hl].
    - destruct s; split; [exact Ha|]. do 5 eexists. split; [exact Hc|exact Hl].
    - rewrite Ha. split; [exact Ha|]. do 5 eexists. split; [exact Hc|exact Hl].
    - split; [exact Ha|]. do 5 eexists. split; [exact Hc|exact Hl]. }
  assert (H0 : children (startup cfg w h dbg r0) = startup_children cfg /\
               assets_settled (startup cfg w h dbg r0) = false) by auto.
  destruct (Hpre evs1 _ Hno (proj1 H0) (proj2 H0)) as [Hc1 Ha1].
  split.
  { unfold update_B. rewrite controls_children, Hc1.
    rewrite (proj2 (nth_error_None _ 3)) by lia. reflexivity. }
  cbn zeta. unfold run_B. rewrite fold_left_app. cbn [fold_left].
  fold (run_B E (startup cfg w h dbg r0) evs1).
  set (s1 := run_B E (startup cfg w h dbg r0) evs1) in *.
  assert (HQ : Q (step_B E s1 (EvAssets Resolved))).
  { cbn [step_B]. rewrite Ha1.
    destruct (onAssetsLoaded_B_children E (settle_assets s1)) as [Hc Ha].
    split; [rewrite Ha; reflexivity|].
    exists (startup_children cfg). unfold objectInit_B in Hc. cbn [fst] in Hc.
    do 4 eexists. split; [rewrite Hc; cbn [children settle_assets]; rewrite Hc1; reflexivity|].
    exact H3. }
  fold (run_B E (step_B E s1 (EvAssets Resolved)) evs2).
  destruct (Hpost evs2 _ HQ) as (_ & pre & g & tr & u & rot & Hc & Hl).
  set (s := run_B E (step_B E s1 (EvAssets Resolved)) evs2) in *.
  rewrite (update_B_mesh3 E s t pre g tr u rot Hc Hl).
  split; [reflexivity|]. split.
  - cbn [fst]. rewrite render_frame_passes. destruct s; reflexivity.
  - exists g, tr. cbn [fst]. rewrite (proj1 (render_frame_keeps _)). cbn [children set_children].
    rewrite nth_error_app2 by lia. rewrite Hl. reflexivity.
Qed.

(** The OBJ callback of the model-sampling build: when the sphere geometry
    can be read, the node added to the scene and [this.targetObject] are the
    same model, scaled by 0.02 and with every mesh in wireframe; it is
    followed by the opaque particle mesh, or by nothing when [objectInit]
    throws. *)
Theorem onObjLoaded_model (E : env) (m : obj_model) (s : world) (ps : list float)
  (Hs : sphere_positions (SphereGeometry E 0.01 8 1) = Some ps) :
  let M := fst (flatten (scale_model m 0.02)) in
  targetObject (onObjLoaded E m s) = Some M /\
  scale M = mkVec3 0.02 0.02 0.02 /\
  (exists rest, children (onObjLoaded E m s) = children s ++ mk (KModel M) :: rest /\
     (rest = [] \/ exists g u, rest = [mk (KParticles g false u)])).
Proof.
  cbn zeta. unfold onObjLoaded, objectInit_A, objectInit_gen. rewrite Hs.
  destruct (flatten (scale_model m 0.02)) as [M pool] eqn:Hf. cbn [fst].
  destruct (instances_A E pool 0 15012 (empty_attrs (w_rng s))) as [a|r'];
    cbn [b_mesh b_model b_rng].
  - split; [reflexivity|]. split.
    + replace M with (fst (flatten (scale_model m 0.02))) by (rewrite Hf; reflexivity).
      reflexivity.
    + eexists. split; [reflexivity|]. right. do 2 eexists. reflexivity.
  - split; [reflexivity|]. split.
    + replace M with (fst (flatten (scale_model m 0.02))) by (rewrite Hf; reflexivity).
      reflexivity.
    + exists []. split; [reflexivity|]. left. reflexivity.
Qed.

Lemma length_Float32Array (l : list float) : length (Float32Array l) = length l.
Proof. apply length_map. Qed.

Lemma length_flat_map_faces {A} (f : face -> list A) c l :
  (forall x, length (f x) = c) -> length (flat_map f l) = c * length l.
Proof.
  intros Hf. induction l as [|x l IH]; cbn [flat_map length]; [lia|].
  rewrite length_app, Hf, IH. lia.
Qed.

(** The mesh of the model-sampling build: 15012 instances, three position
    floats per vertex of each sphere face, and 3, 4, 4 and 4 floats per
    instance in the offset, color and orientation attributes. *)
Theorem attribute_lengths_A (E : env) (m : obj_model) (r : nat) (n : node)
  (Hok : b_mesh (objectInit_A E m r) = inl n) :
  exists g, n = mk (KParticles g false initial_uniforms) /\
    maxInstancedCount g = 15012 /\
    length (g_position g) = 9 * length (faces (SphereGeometry E 0.01 8 1)) /\
    length (g_offset g) = 3 * 15012 /\ length (g_color g) = 4 * 15012 /\
    length (g_orientationStart g) = 4 * 15012 /\ length (g_orientationEnd g) = 4 * 15012.
Proof.
  apply objectInit_gen_mesh in Hok. destruct Hok as (ps & Hs & _ & ->).
  eexists. split; [reflexivity|]. split; [reflexivity|].
  cbn [to_geometry g_position g_offset g_color g_orientationStart g_orientationEnd
       attrs_A offsets colors orientationsStart orientationsEnd].
  rewrite !length_Float32Array.
  rewrite sphere_positions_faces in Hs.
  destruct (forallb _ _); [injection Hs as <-|discriminate].
  rewrite (length_flat_map_faces (face_positions _) 9) by (intros; reflexivity).
  rewrite !(length_flat_map_const _ 3), !(length_flat_map_const _ 4), length_seq
    by (intros; reflexivity).
  repeat split.
Qed.

Lemma instances_B_lengths (E : env) : forall n a,
  length (offsets (instances_B E n a)) = length (offsets a) + 3 * n /\
  length (colors (instances_B E n a)) = length (colors a) + 4 * n /\
  length (orientationsStart (instances_B E n a)) = length (orientationsStart a) + 4 * n /\
  length (orientationsEnd (instances_B E n a)) = length (orientationsEnd a) + 4 * n.
Proof.
  induction n as [|n IH]; intros a; cbn [instances_B].
  - lia.
  - destruct (IH (instance_B E a)) as (H1 & H2 & H3 & H4).
    rewrite H1, H2, H3, H4. cbn [instance_B offsets colors orientationsStart
      orientationsEnd]. rewrite !length_app. cbn [length v4_list]. lia.
Qed.

(** The mesh of the triangle build: transparent, 5000 instances, the
    triangle's nine position floats, 3, 4, 4 and 4 floats per instance in
    the instanced attributes, and 15 [Math.random()] calls per instance. *)
Theorem attribute_lengths_B (E : env) (r : nat) :
  exists g u, fst (objectInit_B E r) = mk (KParticles g true u) /\
    maxInstancedCount g = 5000 /\ g_position g = Float32Array triangle /\
    length (g_offset g) = 3 * 5000 /\ length (g_color g) = 4 * 5000 /\
    length (g_orientationStart g) = 4 * 5000 /\ length (g_orientationEnd g) = 4 * 5000 /\
    snd (objectInit_B E r) = r + 15 * 5000.
Proof.
  do 2 eexists. split; [reflexivity|]. split; [reflexivity|]. split; [reflexivity|].
  cbn [to_geometry g_offset g_color g_orientationStart g_orientationEnd].
  rewrite !length_Float32Array.
  destruct (instances_B_lengths E 5000 (empty_attrs r)) as (H1 & H2 & H3 & H4).
  rewrite H1, H2, H3, H4. cbn [empty_attrs offsets colors orientationsStart
    orientationsEnd length]. repeat split.
  cbn [snd objectInit_B]. destruct (instances_B_closed E 5000 (empty_attrs r)) as (_ & _ & ->).
  reflexivity.
Qed.

(** A second [resize] event with the same window size changes nothing, in
    both builds. *)
Theorem resize_idempotent (E : env) (s : world) (w h : float) :
  step_A E (step_A E s (EvResize w h)) (EvResize w h) = step_A E s (EvResize w h) /\
  step_B E (step_B E s (EvResize w h)) (EvResize w h) = step_B E s (EvResize w h).
Proof.
  destruct s as [c [] [] dbg W H [] lg ld sa so rg fr tg]. split; reflexivity.
Qed.

(** After a frame of the model-sampling build, the last draw is the main
    camera's, viewport and scissor are left on its rectangle, the clear
    color is [0x121212] and the renderer size is unchanged. *)
Theorem frame_leaves_main_viewport (E : env) (s : world) (t : float) :
  let r := rend (update_A E s t) in
  viewport r = scissor r /\ clearColor r = 0x121212%Z /\ size r = size (rend s) /\
  exists rc, last (passes r) (mkPass CDev (mkRect 0 0 0 0)) = mkPass CMain rc /\
  viewport r = rc.
Proof.
  destruct s as [c d m dbg W H rd lg ld sa so rg fr tg]. unfold update_A, render_frame.
  cbn. destruct dbg; cbn; (split; [reflexivity|split; [reflexivity|split; [reflexivity|]]]);
    eexists; rewrite ?last_last, ?app_assoc, ?last_last; split; reflexivity.
Qed.

(** In the triangle build with three startup children, if the asset
    promise rejects, the mesh is never added and every later frame throws
    at [scene.children[3]] without rendering. *)
Theorem triangle_rejected_frames_throw (E : env) (cfg : config) (w h : float)
  (dbg : bool) (r0 : renderer) (err : String.string) (evs1 evs2 : list event) (t : float)
  (H3 : length (startup_children cfg) = 3)
  (Hno : existsb is_assets evs1 = false) :
  let s := run_B E (startup cfg w h dbg r0) (evs1 ++ EvAssets (Rejected err) :: evs2) in
  children s = startup_children cfg /\
  snd (update_B E s t) = Threw TypeError /\
  passes (rend (fst (update_B E s t))) = passes (rend s).
Proof.
  assert (Hstep : forall s ev, children s = startup_children cfg ->
            (is_assets ev = false \/ assets_settled s = true) ->
            children (step_B E s ev) = startup_children cfg /\
            assets_settled (step_B E s ev) = assets_settled s).
  { intros s ev Hc Hev. destruct ev as [t'|w' h'|b|r|m]; cbn [step_B].
    - split.
      + unfold frame_B, update_B. rewrite controls_children, Hc.
        rewrite (proj2 (nth_error_None _ 3)) by lia. exact Hc.
      + unfold frame_B, update_B. rewrite controls_children, Hc.
        rewrite (proj2 (nth_error_None _ 3)) by lia. reflexivity.
    - destruct (resize_keeps s w' h') as (-> & _ & _ & -> & _). auto.
    - destruct s; auto.
    - destruct Hev as [Hev|Ha]; [discriminate|]. rewrite Ha. auto.
    - auto. }
  assert (Hrun : forall evs s, children s = startup_children cfg ->
            (existsb is_assets evs = false \/ assets_settled s = true) ->
            children (run_B E s evs) = startup_children cfg /\
            (assets_settled s = true -> assets_settled (run_B E s evs) = true)).
  { unfold run_B. intros evs. induction evs as [|ev evs IH]; intros s Hc Hev; [auto|].
    cbn [fold_left].
    assert (Hev' : is_assets ev = false \/ assets_settled s = true).
    { destruct Hev as [Hev|Ha]; [|auto]. cbn [existsb] in Hev.
      apply orb_false_iff in Hev. tauto. }
    destruct (Hstep s ev Hc Hev') as [Hc' Ha'].
    destruct (IH (step_B E s ev) Hc') as [Hc'' Ha''].
    - destruct Hev as [Hev|Ha]; [|right; congruence]. cbn [existsb] in Hev.
      apply orb_false_iff in Hev. tauto.
    - split; [exact Hc''|]. intros Ha. apply Ha''. congruence. }
  cbn zeta.
  assert (Heq : run_B E (startup cfg w h dbg r0) (evs1 ++ EvAssets (Rejected err) :: evs2)
    = run_B E (step_B E (run_B E (startup cfg w h dbg r0) evs1) (EvAssets (Rejected err))) evs2)
    by (unfold run_B; rewrite fold_left_app; reflexivity).
  rewrite Heq.
  destruct (Hrun evs1 (startup cfg w h dbg r0) eq_refl (or_introl Hno)) as [Hc1 _].
  set (s1 := run_B E (startup cfg w h dbg r0) evs1) in *.
  assert (Hc2 : children (step_B E s1 (EvAssets (Rejected err))) = startup_children cfg /\
                assets_settled (step_B E s1 (EvAssets (Rejected err))) = true).
  { cbn [step_B]. destruct (assets_settled s1) eqn:Ha; [split; assumption|].
    destruct s1; split; [exact Hc1|reflexivity]. }
  destruct (Hrun evs2 _ (proj1 Hc2) (or_intror (proj2 Hc2))) as [Hc _].
  set (s := run_B E (step_B E s1 (EvAssets (Rejected err))) evs2) in *.
  clearbody s. split; [exact Hc|].
  unfold update_B. rewrite controls_children, Hc.
  rewrite (proj2 (nth_error_None _ 3)) by lia. split; reflexivity.
Qed.

(** *** Witnesses of the further properties *)

Lemma triangle_frames_throw_witness :
  length (startup_children (mkConfig false ["ambient"])) <> 3 /\
  snd (update_B (env_of (fun _ => 0.5%float))
         (run_B (env_of (fun _ => 0.5%float))
            (startup (mkConfig false ["ambient"]) 800 600 false renderer0)
            [EvAssets Resolved]) 0) = Threw TypeError.
Proof.
  assert (H : length (startup_children (mkConfig false ["ambient"])) <> 3)
    by (simpl; lia).
  split; [exact H|].
  exact (proj1 (triangle_frames_throw (env_of (fun _ => 0.5%float))
                  (mkConfig false ["ambient"]) 800 600 false renderer0
                  [EvAssets Resolved] 0 H)).
Defined.

Lemma triangle_frames_run_witness :
  length (startup_children cfg3) = 3 /\ existsb is_assets [EvFrame 0] = false /\
  snd (update_B (env_of (fun _ => 0.5%float))
         (run_B (env_of (fun _ => 0.5%float)) (startup cfg3 800 600 false renderer0)
            ([EvFrame 0] ++ [EvAssets Resolved])) 1) = Done.
Proof.
  assert (H3 : length (startup_children cfg3) = 3) by reflexivity.
  assert (Hno : existsb is_assets [EvFrame 0] = false) by reflexivity.
  split; [exact H3|split; [exact Hno|]].
  exact (proj1 (proj2 (triangle_frames_run (env_of (fun _ => 0.5%float)) cfg3
                  800 600 false renderer0 [EvFrame 0] [] 1 H3 Hno))).
Defined.

Lemma onObjLoaded_model_witness :
  exists ps,
    sphere_positions (SphereGeometry (env_of (fun _ => 0.5%float)) 0.01 8 1) = Some ps /\
    targetObject (onObjLoaded (env_of (fun _ => 0.5%float)) model_1
                    (startup cfg3 800 600 false renderer0)) =
      Some (fst (flatten (scale_model model_1 0.02))).
Proof.
  destruct sphere1_positions as [ps Hs]. exists ps. split; [exact Hs|].
  exact (proj1 (onObjLoaded_model (env_of (fun _ => 0.5%float)) model_1
                  (startup cfg3 800 600 false renderer0) ps Hs)).
Defined.

Lemma attribute_lengths_A_witness :
  exists n, b_mesh (objectInit_A (env_of (fun _ => 0.5%float)) model_15012 0) = inl n /\
    exists g, n = mk (KParticles g false initial_uniforms) /\ maxInstancedCount g = 15012.
Proof.
  destruct sphere1_positions as [positions Hs].
  pose proof (objectInit_gen_ok (env_of (fun _ => 0.5%float)) 15012 model_15012 0
                positions Hs model_15012_pool) as Hb.
  eexists.
  assert (Hm : b_mesh (objectInit_A (env_of (fun _ => 0.5%float)) model_15012 0) =
    inl (mk (KParticles (to_geometry 15012 positions
      (attrs_A (env_of (fun _ => 0.5%float)) (snd (flatten model_15012)) 15012 0))
      false initial_uniforms)))
    by (unfold objectInit_A; rewrite Hb; reflexivity).
  split; [exact Hm|].
  destruct (attribute_lengths_A _ _ _ _ Hm) as (g & Hg & Hc & _).
  exists g. split; [exact Hg|exact Hc].
Defined.

Lemma triangle_rejected_frames_throw_witness :
  length (startup_children cfg3) = 3 /\ existsb is_assets [] = false /\
  snd (update_B (env_of (fun _ => 0.5%float))
         (run_B (env_of (fun _ => 0.5%float)) (startup cfg3 800 600 false renderer0)
            ([] ++ [EvAssets (Rejected "404"); EvFrame 0])) 1) = Threw TypeError.
Proof.
  assert (H3 : length (startup_children cfg3) = 3) by reflexivity.
  assert (Hno : existsb is_assets [] = false) by reflexivity.
  split; [exact H3|split; [exact Hno|]].
  exact (proj1 (proj2 (triangle_rejected_frames_throw (env_of (fun _ => 0.5%float))
                  cfg3 800 600 false renderer0 "404" [] [EvFrame 0] 1 H3 Hno))).
Defined.
